(** * go-api: the topic controllers and the Facebook OAuth controller

    A shallow embedding of

    - [controllers/topic.go]: [GetTopics] and [GetATopic];
    - [controllers/oauth/facebook/facebook.go]: [initOauthConfig],
      [BeginAuth], [Authenticate] and [getRemoteUserData].

    Handlers talk to collaborators that live outside these two files: the
    storage interfaces, package [utils], [gjson], the OAuth2 client and the
    HTTP client.  Those are fields of an environment record and act on an
    abstract world state; every call, and every write to the HTTP response,
    is appended to a trace, so that statements such as "the exchange is never
    reached" or "exactly one insert" are statements about that trace.
    Calls to the logger are left out of the trace.

    The pieces of Go's standard library that the handlers compute with
    ([strconv.ParseBool], [net/url]) are written out in modules named after
    their packages. *)

From Stdlib Require Import ZArith String Ascii List Bool Lia.
From stdpp Require Import base option list strings gmap.

Import ListNotations.
Local Open Scope string_scope.
Local Open Scope Z_scope.

(** ** Go values *)

(** A Go slice is either [nil] or a (possibly empty) sequence; [encoding/json]
    renders the former as [null] and the latter as an array. *)
Inductive slice (A : Type) : Type :=
| nil_slice
| make_slice (elems : list A).
Arguments nil_slice {A}.
Arguments make_slice {A} elems.

Definition len {A} (s : slice A) : Z :=
  match s with
  | nil_slice => 0
  | make_slice l => Z.of_nat (length l)
  end.

Definition is_nil {A} (s : slice A) : bool :=
  match s with nil_slice => true | make_slice _ => false end.

(** [s[0]] for a slice already known to be non-empty. *)
Definition first {A} (s : slice A) : option A :=
  match s with
  | make_slice (x :: _) => Some x
  | _ => None
  end.

(** Error values.  The handlers only test them against [nil], hand them on,
    or ask for their text; the text itself is produced by [Error] methods
    that are not part of the two files and is a field of the environment. *)
Inductive error : Type :=
| errors_New (text : string)
| EscapeError (s : string)
| url_Error (Op URL : string) (Err : error)
| NumError (Func Num : string) (Err : error)
| AppError (message from detail : string) (code : Z).

Definition ErrSyntax : error := errors_New "invalid syntax".

(** ** package net/http: the status codes the handlers use *)
Module http.
Definition StatusOK : Z := 200.
Definition StatusTemporaryRedirect : Z := 307.
Definition StatusUnauthorized : Z := 401.
Definition StatusNotFound : Z := 404.
End http.

(** ** package strconv *)
Module strconv.
Definition ParseBool (str : string) : bool * option error :=
  if existsb (String.eqb str) ["1"; "t"; "T"; "true"; "TRUE"; "True"]
  then (true, None)
  else if existsb (String.eqb str) ["0"; "f"; "F"; "false"; "FALSE"; "False"]
  then (false, None)
  else (false, Some (NumError "ParseBool" str ErrSyntax)).
End strconv.

(** ** package strings, on byte strings *)
Module strings.
(** [strings.Cut(s, sep)] for a one-byte separator. *)
Fixpoint Cut (s : string) (sep : ascii) : string * string * bool :=
  match s with
  | EmptyString => (EmptyString, EmptyString, false)
  | String c r =>
      if Ascii.eqb c sep then (EmptyString, r, true)
      else let '(before, after, found) := Cut r sep in
           (String c before, after, found)
  end.

Fixpoint ContainsByte (s : string) (b : ascii) : bool :=
  match s with
  | EmptyString => false
  | String c r => Ascii.eqb c b || ContainsByte r b
  end.

Fixpoint CountByte (s : string) (b : ascii) : nat :=
  match s with
  | EmptyString => O
  | String c r => ((if Ascii.eqb c b then 1 else 0) + CountByte r b)%nat
  end.

Definition HasPrefix (s p : string) : bool := String.prefix p s.

Fixpoint HasSuffixByte (s : string) (b : ascii) : bool :=
  match s with
  | EmptyString => false
  | String c EmptyString => Ascii.eqb c b
  | String _ r => HasSuffixByte r b
  end.

(** [s[:len(s)-1]] *)
Fixpoint dropLast (s : string) : string :=
  match s with
  | EmptyString => EmptyString
  | String _ EmptyString => EmptyString
  | String c r => String c (dropLast r)
  end.

(** [strings.LastIndex(s, sep)] as a split: [Some (s[:i], s[i+1:])]. *)
Fixpoint CutLast (s : string) (sep : ascii) : option (string * string) :=
  match s with
  | EmptyString => None
  | String c r =>
      match CutLast r sep with
      | Some (before, after) => Some (String c before, after)
      | None => if Ascii.eqb c sep then Some (EmptyString, r) else None
      end
  end.

Definition lowerByte (c : ascii) : ascii :=
  let n := nat_of_ascii c in
  if ((65 <=? n) && (n <=? 90))%nat then ascii_of_nat (n + 32) else c.

Fixpoint ToLower (s : string) : string :=
  match s with
  | EmptyString => EmptyString
  | String c r => String (lowerByte c) (ToLower r)
  end.

Fixpoint Join (elems : list string) (sep : string) : string :=
  match elems with
  | [] => ""
  | [x] => x
  | x :: r => x ++ sep ++ Join r sep
  end.
End strings.

(** ** package net/url

    Written after Go's implementation.  Two simplifications, neither of which
    touches the query string: the authority is split at its last [@] and both
    halves are kept as written (Go decodes and re-encodes the user
    information and validates bracketed IP literals and ports in the host),
    and [unescape] is only ever applied to paths, fragments and query
    components, so its host-specific checks are absent. *)
Module url.

Inductive encoding : Type :=
| encodePath
| encodeHost
| encodeQueryComponent
| encodeFragment.

Definition between (lo hi : nat) (c : ascii) : bool :=
  let n := nat_of_ascii c in ((lo <=? n) && (n <=? hi))%nat.

Definition isAlpha (c : ascii) : bool := between 97 122 c || between 65 90 c.
Definition isDigit (c : ascii) : bool := between 48 57 c.
Definition oneOf (set : string) (c : ascii) : bool := strings.ContainsByte set c.
Definition dquote : ascii := ascii_of_nat 34.

Definition ishex (c : ascii) : bool :=
  isDigit c || between 97 102 c || between 65 70 c.

Definition unhex (c : ascii) : nat :=
  let n := nat_of_ascii c in
  if isDigit c then (n - 48)%nat
  else if between 97 102 c then (n - 97 + 10)%nat
  else if between 65 70 c then (n - 65 + 10)%nat
  else O.

Definition upperhex (n : nat) : ascii :=
  nth n (list_ascii_of_string "0123456789ABCDEF") "0"%char.

Definition shouldEscape (c : ascii) (mode : encoding) : bool :=
  if isAlpha c || isDigit c then false
  else if match mode with encodeHost => true | _ => false end
          && (oneOf "!$&'()*+,;=:[]<>" c || Ascii.eqb c dquote) then false
  else if oneOf "-_.~" c then false
  else if oneOf "$&+,/:;=?@" c
          && match mode with encodeHost => false | _ => true end then
    match mode with
    | encodePath => Ascii.eqb c "?"
    | encodeQueryComponent => true
    | encodeFragment => false
    | encodeHost => true
    end
  else if match mode with encodeFragment => true | _ => false end
          && oneOf "!()*" c then false
  else true.

Definition escapeByte (c : ascii) : string :=
  let n := nat_of_ascii c in
  String "%" (String (upperhex (n / 16)) (String (upperhex (n mod 16)) "")).

Fixpoint escape (s : string) (mode : encoding) : string :=
  match s with
  | EmptyString => ""
  | String c r =>
      (if shouldEscape c mode then
         if Ascii.eqb c " " && match mode with encodeQueryComponent => true | _ => false end
         then "+"
         else escapeByte c
       else String c "") ++ escape r mode
  end.

(** [s[i:]] cut to at most three bytes, the payload of an [EscapeError]. *)
Definition upTo3 (s : string) : string := substring 0 3 s.

Fixpoint unescape (s : string) (mode : encoding) : string + error :=
  match s with
  | EmptyString => inl ""
  | String c r =>
      if Ascii.eqb c "%" then
        match r with
        | String h1 (String h2 r') =>
            if ishex h1 && ishex h2 then
              match unescape r' mode with
              | inl t => inl (String (ascii_of_nat (unhex h1 * 16 + unhex h2)) t)
              | inr e => inr e
              end
            else inr (EscapeError (upTo3 s))
        | _ => inr (EscapeError (upTo3 s))
        end
      else
        match unescape r mode with
        | inl t =>
            inl (String (if Ascii.eqb c "+"
                            && match mode with encodeQueryComponent => true | _ => false end
                         then " "%char else c) t)
        | inr e => inr e
        end
  end.

Definition QueryEscape (s : string) : string := escape s encodeQueryComponent.

Fixpoint validEncoded (s : string) (mode : encoding) : bool :=
  match s with
  | EmptyString => true
  | String c r =>
      (oneOf "!$&'()*+,;=:@[]%" c || negb (shouldEscape c mode)) && validEncoded r mode
  end.

Record URL : Type := mkURL {
  Scheme : string;
  Opaque : string;
  User : option string;
  Host : string;
  Path : string;
  RawPath : string;
  OmitHost : bool;
  ForceQuery : bool;
  RawQuery : string;
  Fragment : string;
  RawFragment : string
}.

(** [new(URL)] *)
Definition zeroURL : URL := mkURL "" "" None "" "" "" false false "" "" "".

(** [u.RawQuery = q] *)
Definition set_RawQuery (u : URL) (q : string) : URL :=
  mkURL (Scheme u) (Opaque u) (User u) (Host u) (Path u) (RawPath u)
        (OmitHost u) (ForceQuery u) q (Fragment u) (RawFragment u).

Fixpoint stringContainsCTLByte (s : string) : bool :=
  match s with
  | EmptyString => false
  | String c r =>
      (nat_of_ascii c <? 32)%nat || (nat_of_ascii c =? 127)%nat || stringContainsCTLByte r
  end.

Fixpoint getScheme_loop (rawURL s : string) (i : nat) : (string * string) + error :=
  match s with
  | EmptyString => inl ("", rawURL)
  | String c r =>
      if isAlpha c then getScheme_loop rawURL r (S i)
      else if isDigit c || oneOf "+-." c then
        if (i =? 0)%nat then inl ("", rawURL) else getScheme_loop rawURL r (S i)
      else if Ascii.eqb c ":" then
        if (i =? 0)%nat then inr (errors_New "missing protocol scheme")
        else inl (substring 0 i rawURL, r)
      else inl ("", rawURL)
  end.

Definition getScheme (rawURL : string) : (string * string) + error :=
  getScheme_loop rawURL rawURL 0.

Definition parseAuthority (authority : string) : option string * string :=
  match strings.CutLast authority "@" with
  | None => (None, authority)
  | Some (userinfo, host) => (Some userinfo, host)
  end.

(** [u.setPath(p)]: the decoded path, and the raw one when it is not the
    default encoding of the decoded one. *)
Definition setPath (p : string) : (string * string) + error :=
  match unescape p encodePath with
  | inr e => inr e
  | inl path =>
      inl (path, if String.eqb p (escape path encodePath) then "" else p)
  end.

Definition setFragment (f : string) : (string * string) + error :=
  match unescape f encodeFragment with
  | inr e => inr e
  | inl frag =>
      inl (frag, if String.eqb f (escape frag encodeFragment) then "" else f)
  end.

Definition parse (rawURL : string) (viaRequest : bool) : URL + error :=
  if stringContainsCTLByte rawURL then
    inr (errors_New "net/url: invalid control character in URL")
  else if String.eqb rawURL "" && viaRequest then inr (errors_New "empty url")
  else if String.eqb rawURL "*" then
    inl (mkURL "" "" None "" "*" "" false false "" "" "")
  else
    match getScheme rawURL with
    | inr e => inr e
    | inl (scheme0, rest0) =>
        let scheme := strings.ToLower scheme0 in
        let '(rest1, forceQuery, rawQuery) :=
          if strings.HasSuffixByte rest0 "?" && (strings.CountByte rest0 "?" =? 1)%nat
          then (strings.dropLast rest0, true, "")
          else let '(before, after, _) := strings.Cut rest0 "?" in (before, false, after) in
        let rooted := strings.HasPrefix rest1 "/" in
        if negb rooted && negb (String.eqb scheme "") then
          inl (mkURL scheme rest1 None "" "" "" false forceQuery rawQuery "" "")
        else if negb rooted && viaRequest then
          inr (errors_New "invalid URI for request")
        else if negb rooted
                && strings.ContainsByte (fst (fst (strings.Cut rest1 "/"))) ":" then
          inr (errors_New "first path segment in URL cannot contain colon")
        else
          let '(user, host, omitHost, rest2) :=
            if (negb (String.eqb scheme "")
                || (negb viaRequest && negb (strings.HasPrefix rest1 "///")))
               && strings.HasPrefix rest1 "//"
            then
              let '(authority, after, found) :=
                strings.Cut (substring 2 (String.length rest1) rest1) "/" in
              let '(user, host) := parseAuthority authority in
              (user, host, false, if found then String "/" after else "")
            else if negb (String.eqb scheme "") && rooted
            then (None, "", true, rest1)
            else (None, "", false, rest1) in
          match setPath rest2 with
          | inr e => inr e
          | inl (path, rawPath) =>
              inl (mkURL scheme "" user host path rawPath omitHost
                         forceQuery rawQuery "" "")
          end
    end.

Definition Parse (rawURL : string) : URL + error :=
  let '(u, frag, _) := strings.Cut rawURL "#" in
  match parse u false with
  | inr e => inr (url_Error "parse" u e)
  | inl url =>
      if String.eqb frag "" then inl url
      else
        match setFragment frag with
        | inr e => inr (url_Error "parse" rawURL e)
        | inl (fragment, rawFragment) =>
            inl (mkURL (Scheme url) (Opaque url) (User url) (Host url) (Path url)
                       (RawPath url) (OmitHost url) (ForceQuery url) (RawQuery url)
                       fragment rawFragment)
        end
  end.

Definition EscapedPath (u : URL) : string :=
  if negb (String.eqb (RawPath u) "") && validEncoded (RawPath u) encodePath
     && match unescape (RawPath u) encodePath with
        | inl p => String.eqb p (Path u)
        | inr _ => false
        end
  then RawPath u
  else if String.eqb (Path u) "*" then "*"
  else escape (Path u) encodePath.

Definition EscapedFragment (u : URL) : string :=
  if negb (String.eqb (RawFragment u) "") && validEncoded (RawFragment u) encodeFragment
     && match unescape (RawFragment u) encodeFragment with
        | inl f => String.eqb f (Fragment u)
        | inr _ => false
        end
  then RawFragment u
  else escape (Fragment u) encodeFragment.

(** [u.String()] *)
Definition String_ (u : URL) : string :=
  let nonempty s := negb (String.eqb s "") in
  let hasUser := match User u with Some _ => true | None => false end in
  let scheme := if nonempty (Scheme u) then Scheme u ++ ":" else "" in
  let body :=
    if nonempty (Opaque u) then scheme ++ Opaque u
    else
      let authority :=
        if nonempty (Scheme u) || nonempty (Host u) || hasUser then
          if OmitHost u && negb (nonempty (Host u)) && negb hasUser then ""
          else
            (if nonempty (Host u) || nonempty (Path u) || hasUser then "//" else "")
            ++ match User u with Some ui => ui ++ "@" | None => "" end
            ++ (if nonempty (Host u) then escape (Host u) encodeHost else "")
        else "" in
      let path := EscapedPath u in
      let buf1 :=
        scheme ++ authority
        ++ (if nonempty path && negb (strings.HasPrefix path "/") && nonempty (Host u)
            then "/" else "") in
      let buf2 :=
        if String.eqb buf1 ""
           && strings.ContainsByte (fst (fst (strings.Cut path "/"))) ":"
        then "./" else buf1 in
      buf2 ++ path in
  body
  ++ (if ForceQuery u || nonempty (RawQuery u) then "?" ++ RawQuery u else "")
  ++ (if nonempty (Fragment u) then "#" ++ EscapedFragment u else "").

(** [url.Values] is [map[string][]string]. *)
Abbreviation Values := (gmap string (list string)).

Definition Add (key value : string) (v : Values) : Values :=
  <[key := app (default [] (v !! key)) [value]]> v.

(** [v.Get(key)]: the first value under [key], or the empty string. *)
Definition Get (v : Values) (key : string) : string :=
  match v !! key with
  | Some (x :: _) => x
  | _ => ""
  end.

Fixpoint insertKey (k : string) (l : list string) : list string :=
  match l with
  | [] => [k]
  | x :: r => if String.leb k x then k :: l else x :: insertKey k r
  end.

Definition sortKeys (l : list string) : list string := foldr insertKey [] l.

(** [v.Encode()]: [key=value] pairs, keys sorted, joined by [&]. *)
Definition Encode (v : Values) : string :=
  strings.Join
    (flat_map
       (fun k => map (fun x => QueryEscape k ++ "=" ++ QueryEscape x)
                     (default [] (v !! k)))
       (sortKeys (map fst (map_to_list v))))
    "&".
End url.

(** ** Declarations of packages database/sql, models, utils, oauth2, gin *)

Module sql.
Record NullString : Type := mkNullString { String_ : string; Valid : bool }.
End sql.

Module models.
Record OAuthAccount : Type := mkOAuthAccount {
  Type_ : string;
  AId : sql.NullString;
  Email : sql.NullString;
  Name : sql.NullString;
  FirstName : sql.NullString;
  LastName : sql.NullString;
  Gender : sql.NullString;
  Picture : sql.NullString
}.

(** The fields of [models.User] that the controller reads. *)
Record User : Type := mkUser {
  ID : Z;
  Privilege : Z;
  UserFirstName : sql.NullString;
  UserLastName : sql.NullString;
  UserEmail : sql.NullString
}.

(** [models.User{}] *)
Definition zeroUser : User :=
  mkUser 0 0 (sql.mkNullString "" false) (sql.mkNullString "" false)
         (sql.mkNullString "" false).

Record MetaOfResponse : Type := mkMeta {
  Total : Z;
  Offset : Z;
  Limit : Z
}.

Definition NewAppError (message from detail : string) (code : Z) : error :=
  AppError message from detail code.
End models.

Module utils.
Record FacebookSettings : Type := mkFacebookSettings {
  ID : string;
  Secret : string;
  URL : string;
  Statestr : string
}.

(** [utils.Cfg], as far as the controller reads it:
    [Cfg.OauthSettings.FacebookSettings] and [Cfg.AppSettings.Path]. *)
Record Config : Type := mkConfig {
  OauthSettings_FacebookSettings : FacebookSettings;
  AppSettings_Path : string
}.
End utils.

Module oauth2.
Record Endpoint : Type := mkEndpoint { AuthURL : string; TokenURL : string }.

Record Config : Type := mkConfig {
  ClientID : string;
  ClientSecret : string;
  RedirectURL : string;
  Scopes : list string;
  Endpoint_ : Endpoint
}.

Definition set_RedirectURL (c : Config) (r : string) : Config :=
  mkConfig (ClientID c) (ClientSecret c) r (Scopes c) (Endpoint_ c).

Record Token : Type := mkToken { AccessToken : string }.
End oauth2.

Module gin.
(** [gin.H] is [map[string]interface{}]; [V] is the type of the values a
    handler stores in it. *)
Abbreviation H V := (gmap string V).

(** What a handler reads from [*http.Request]: the parsed URL query
    ([r.URL.Query()]) and the parsed form ([r.Form], which [FormValue]
    consults). *)
Record Request : Type := mkRequest {
  URL_Query : url.Values;
  Form : url.Values
}.

Definition FormValue (r : Request) (key : string) : string :=
  url.Get (Form r) key.

(** [gin.Context]: the request and the path parameters of the route. *)
Record Context : Type := mkContext {
  Request_ : Request;
  Params : list (string * string)
}.

Definition Query (c : Context) (key : string) : string :=
  url.Get (URL_Query (Request_ c)) key.

Fixpoint ByName (ps : list (string * string)) (name : string) : string :=
  match ps with
  | [] => ""
  | (k, v) :: r => if String.eqb k name then v else ByName r name
  end.

Definition Param (c : Context) (key : string) : string := ByName (Params c) key.
End gin.

(** ** Effects

    A handler runs against a store [S] (the outside world and the globals of
    its package).  It finishes or panics, leaves a store behind, and emits
    the events [E] of the calls it made, in order. *)
Module Eff.
Inductive outcome (A : Type) : Type :=
| Done (a : A)
| Panic (reason : string).
Arguments Done {A} a.
Arguments Panic {A} reason.

Definition M (S E A : Type) : Type := S -> outcome A * S * list E.

Definition ret {S E A} (a : A) : M S E A := fun s => (Done a, s, []).

Definition bind {S E A B} (m : M S E A) (f : A -> M S E B) : M S E B :=
  fun s =>
    match m s with
    | (Done a, s1, t1) =>
        match f a s1 with
        | (r, s2, t2) => (r, s2, app t1 t2)
        end
    | (Panic p, s1, t1) => (Panic p, s1, t1)
    end.

Definition emit {S E} (e : E) : M S E unit := fun s => (Done tt, s, [e]).

Definition panic {S E A} (reason : string) : M S E A :=
  fun s => (Panic reason, s, []).

Definition get {S E} : M S E S := fun s => (Done s, s, []).

Definition put {S E} (s : S) : M S E unit := fun _ => (Done tt, s, []).

(** What a run produced. *)
Definition result {A S E} (r : outcome A * S * list E) : outcome A := fst (fst r).
Definition store {A S E} (r : outcome A * S * list E) : S := snd (fst r).
Definition events {A S E} (r : outcome A * S * list E) : list E := snd r.
End Eff.

Declare Scope eff_scope.
Delimit Scope eff_scope with eff.
Notation "x <- m ;; k" := (Eff.bind m (fun x => k))
  (at level 20, m at level 99, k at level 200, only parsing) : eff_scope.
Notation "' p <- m ;; k" := (Eff.bind m (fun x => match x with p => k end))
  (at level 20, p pattern, m at level 99, k at level 200, only parsing) : eff_scope.
Notation "m ;;; k" := (Eff.bind m (fun _ => k))
  (at level 100, k at level 200, only parsing, right associativity) : eff_scope.

(** ** controllers/oauth/facebook/facebook.go *)
Module facebook.

(** The outside world as the controller sees it: everything [facebook.go]
    imports and does not define.  [W] is the state of that world (network,
    clock, database). *)
Class Env (W : Type) : Type := {
  (** the [Error()] method of error values *)
  Error : error -> string;
  (** [constants.Facebook] *)
  constants_Facebook : string;
  (** [utils.Cfg] *)
  Cfg : utils.Config;
  (** [facebook.Endpoint] of golang.org/x/oauth2/facebook *)
  facebook_Endpoint : oauth2.Endpoint;
  ToNullString : string -> sql.NullString;
  GetGender : string -> sql.NullString;
  (** [gjson.Get(json, path).Str] *)
  gjson_Get_Str : string -> string -> string;
  (** [utils.RetrieveToken(id, privilege, firstName, lastName, email)] *)
  RetrieveToken : Z -> Z -> string -> string -> string ->
                  W -> (string * option error) * W;
  (** [conf.Exchange(oauth2.NoContext, code)] *)
  Exchange : oauth2.Config -> string -> W -> (oauth2.Token + error) * W;
  (** [http.Get(url)]: an error, or a response whose body is then pending
      in the world *)
  http_Get : string -> W -> option error * W;
  (** [ioutil.ReadAll(resp.Body)] *)
  ReadAll : W -> (string * option error) * W;
  (** [resp.Body.Close()] *)
  Body_Close : W -> W
}.

(** [storage.UserStorage], as far as the controller calls it. *)
Class UserStorage (W : Type) : Type := {
  GetUserDataByOAuth : models.OAuthAccount -> W -> (models.User * option error) * W;
  InsertUserByOAuth : models.OAuthAccount -> W -> (models.User * option error) * W;
  UpdateOAuthData : models.OAuthAccount -> W -> (models.OAuthAccount * option error) * W
}.

(** [type Facebook struct { Storage storage.UserStorage }] *)
Record Facebook (W : Type) : Type := mkFacebook { Storage : UserStorage W }.
Arguments Storage {W} _.

(** Calls to collaborators with what they returned, and writes to the
    HTTP response. *)
Inductive event : Type :=
| EvRedirect (url : string) (code : Z)
| EvJSON (code : Z) (body : gin.H string)
| EvExchange (code : string) (res : oauth2.Token + error)
| EvGet (url : string) (res : option error)
| EvReadAll (res : string * option error)
| EvClose
| EvGetUserDataByOAuth (a : models.OAuthAccount) (res : models.User * option error)
| EvInsertUserByOAuth (a : models.OAuthAccount) (res : models.User * option error)
| EvUpdateOAuthData (a : models.OAuthAccount) (res : models.OAuthAccount * option error)
| EvRetrieveToken (id privilege : Z) (firstName lastName email : string)
                  (res : string * option error).

(** The world together with the package-level [var oauthConf *oauth2.Config]. *)
Record store (W : Type) : Type := mkStore {
  world : W;
  oauthConf : option oauth2.Config
}.
Arguments mkStore {W} _ _.
Arguments world {W} _.
Arguments oauthConf {W} _.

Section Controller.
Context {W : Type} `{!Env W}.

Local Open Scope eff_scope.

Abbreviation M := (Eff.M (store W) event).

(** Run a collaborator on the world and log the call with its result. *)
Definition call {A} (f : W -> A * W) (ev : A -> event) : M A :=
  fun s =>
    let '(a, w) := f (world s) in
    (Eff.Done a, mkStore w (oauthConf s), [ev a]).

Definition initOauthConfig (location : string) : M unit :=
  let location :=
    if String.eqb location "" then "https://www.twreporter.org" else location in
  let location := url.QueryEscape location in
  let redirectURL :=
    utils.URL (utils.OauthSettings_FacebookSettings Cfg) ++ "?location=" ++ location in
  s <- Eff.get ;;
  match oauthConf s with
  | None =>
      Eff.put (mkStore (world s) (Some
        (oauth2.mkConfig
           (utils.ID (utils.OauthSettings_FacebookSettings Cfg))
           (utils.Secret (utils.OauthSettings_FacebookSettings Cfg))
           redirectURL
           ["public_profile"; "email"]
           facebook_Endpoint)))
  | Some conf =>
      Eff.put (mkStore (world s) (Some (oauth2.set_RedirectURL conf redirectURL)))
  end.

(** BeginAuth redirects user to the Facebook Authentication *)
Definition BeginAuth (o : Facebook W) (c : gin.Context) : M unit :=
  let location := gin.Query c "location" in
  initOauthConfig location ;;;
  s <- Eff.get ;;
  match oauthConf s with
  | None => Eff.panic "invalid memory address or nil pointer dereference"
  | Some conf =>
      match url.Parse (oauth2.AuthURL (oauth2.Endpoint_ conf)) with
      | inr _ =>
          (* the error is logged and [URL] is nil *)
          Eff.panic "invalid memory address or nil pointer dereference"
      | inl URL =>
          let parameters : url.Values := ∅ in
          let parameters := url.Add "client_id" (oauth2.ClientID conf) parameters in
          let parameters :=
            url.Add "scope" (strings.Join (oauth2.Scopes conf) " ") parameters in
          let parameters := url.Add "redirect_uri" (oauth2.RedirectURL conf) parameters in
          let parameters := url.Add "response_type" "code" parameters in
          let parameters :=
            url.Add "state"
                    (utils.Statestr (utils.OauthSettings_FacebookSettings Cfg))
                    parameters in
          let URL := url.set_RawQuery URL (url.Encode parameters) in
          Eff.emit (EvRedirect (url.String_ URL) http.StatusTemporaryRedirect)
      end
  end.

(** getRemoteUserData fetched user data from Facebook *)
Definition getRemoteUserData (r : gin.Request) : M (string * option error) :=
  let oauthStateString := utils.Statestr (utils.OauthSettings_FacebookSettings Cfg) in
  let loginPath := utils.AppSettings_Path Cfg ++ "/login" in
  let state := gin.FormValue r "state" in
  if negb (String.eqb state oauthStateString) then
    Eff.emit (EvRedirect loginPath http.StatusTemporaryRedirect) ;;;
    Eff.ret ("", Some (models.NewAppError "OAuth state" "controllers.oauth.facebook"
                                          "Invalid oauth state" 500))
  else
    let code := gin.FormValue r "code" in
    s <- Eff.get ;;
    match oauthConf s with
    | None => Eff.panic "invalid memory address or nil pointer dereference"
    | Some conf =>
        exchanged <- call (Exchange conf code) (EvExchange code) ;;
        match exchanged with
        | inr err =>
            Eff.emit (EvRedirect loginPath http.StatusTemporaryRedirect) ;;;
            Eff.ret ("", Some (models.NewAppError "Code exchange failed"
                                 "controllers.oauth.facebook" (Error err) 500))
        | inl token =>
            let target :=
              "https://graph.facebook.com/v2.8/me?fields=id,name,email,picture,birthday,first_name,last_name,gender&access_token="
              ++ url.QueryEscape (oauth2.AccessToken token) in
            got <- call (http_Get target) (EvGet target) ;;
            match got with
            | Some err =>
                Eff.emit (EvRedirect loginPath http.StatusTemporaryRedirect) ;;;
                Eff.ret ("", Some (models.NewAppError
                                     "Cannot get user info using Facebook API"
                                     "controllers.oauth.facebook" (Error err) 500))
            | None =>
                (* [defer resp.Body.Close()] runs when the function returns *)
                read <- call ReadAll EvReadAll ;;
                match read with
                | (_, Some err) =>
                    Eff.emit (EvRedirect loginPath http.StatusTemporaryRedirect) ;;;
                    call (fun w => (tt, Body_Close w)) (fun _ => EvClose) ;;;
                    Eff.ret ("", Some (models.NewAppError
                                         "Error parsing Facebook user data"
                                         "controllers.oauth.facebook" (Error err) 500))
                | (response, None) =>
                    call (fun w => (tt, Body_Close w)) (fun _ => EvClose) ;;;
                    Eff.ret (response, None)
                end
            end
        end
    end.

(** The composite literal [models.OAuthAccount{...}] that decodes the
    profile returned by Facebook. *)
Definition remoteOauthOf (fstring : string) : models.OAuthAccount :=
  models.mkOAuthAccount
    constants_Facebook
    (ToNullString (gjson_Get_Str fstring "id"))
    (ToNullString (gjson_Get_Str fstring "email"))
    (ToNullString (gjson_Get_Str fstring "name"))
    (ToNullString (gjson_Get_Str fstring "first_name"))
    (ToNullString (gjson_Get_Str fstring "last_name"))
    (GetGender (gjson_Get_Str fstring "gender"))
    (ToNullString (gjson_Get_Str fstring "picture.data.url")).

(** Authenticate requests the user profile from Facebook *)
Definition Authenticate (o : Facebook W) (c : gin.Context) : M unit :=
  let location := gin.Query c "location" in
  (* get user data from Facebook *)
  '(fstring, err) <- getRemoteUserData (gin.Request_ c) ;;
  match err with
  | Some _ =>
      Eff.emit (EvJSON http.StatusUnauthorized
                  {[ "status" := "unauthorized";
                     "type" := constants_Facebook;
                     "description" := "Cannot get user data from Facebook." ]})
  | None =>
      (* decode user data returned by Facebook *)
      let remoteOauth := remoteOauthOf fstring in
      (* find the OAuth user from the database *)
      '(matchUser, err) <-
        call (GetUserDataByOAuth (UserStorage := Storage o) remoteOauth)
             (EvGetUserDataByOAuth remoteOauth) ;;
      (* if the user doesn't exist, register the user automatically *)
      match err with
      | Some _ =>
          _ <- call (InsertUserByOAuth (UserStorage := Storage o) remoteOauth)
                    (EvInsertUserByOAuth remoteOauth) ;;
          Eff.ret tt
      | None =>
          (* update existing OAuth data *)
          _ <- call (UpdateOAuthData (UserStorage := Storage o) remoteOauth)
                    (EvUpdateOAuthData remoteOauth) ;;
          Eff.ret tt
      end ;;;
      '(token, _) <-
        call (RetrieveToken (models.ID matchUser) (models.Privilege matchUser)
                (sql.String_ (models.UserFirstName matchUser))
                (sql.String_ (models.UserLastName matchUser))
                (sql.String_ (models.UserEmail matchUser)))
             (EvRetrieveToken (models.ID matchUser) (models.Privilege matchUser)
                (sql.String_ (models.UserFirstName matchUser))
                (sql.String_ (models.UserLastName matchUser))
                (sql.String_ (models.UserEmail matchUser))) ;;
      match url.Parse location with
      | inr err =>
          Eff.emit (EvJSON 500
                      {[ "status" := "Internal server error";
                         "error" := Error err ]})
      | inl u =>
          let parameters : url.Values := ∅ in
          let parameters := url.Add "token" token parameters in
          let u := url.set_RawQuery u (url.Encode parameters) in
          Eff.emit (EvRedirect (url.String_ u) http.StatusTemporaryRedirect)
      end
  end.
End Controller.

(** Reading a trace. *)
Definition is_exchange (e : event) : bool :=
  match e with EvExchange _ _ => true | _ => false end.

Definition is_insert (e : event) : bool :=
  match e with EvInsertUserByOAuth _ _ => true | _ => false end.

Definition is_update (e : event) : bool :=
  match e with EvUpdateOAuthData _ _ => true | _ => false end.

Definition is_storage_call (e : event) : bool :=
  match e with
  | EvGetUserDataByOAuth _ _ | EvInsertUserByOAuth _ _ | EvUpdateOAuthData _ _ => true
  | _ => false
  end.

Definition is_response_write (e : event) : bool :=
  match e with EvRedirect _ _ | EvJSON _ _ => true | _ => false end.

Definition count (p : event -> bool) (t : list event) : nat :=
  length (List.filter p t).

(** What [Authenticate] writes to the response once the token is issued:
    its last eleven lines, as an event. *)
Definition tokenResponse {W} `{!Env W} (location token : string) : event :=
  match url.Parse location with
  | inr err =>
      EvJSON 500 {[ "status" := "Internal server error"; "error" := Error err ]}
  | inl u =>
      EvRedirect
        (url.String_ (url.set_RawQuery u (url.Encode (url.Add "token" token ∅))))
        http.StatusTemporaryRedirect
  end.


End facebook.

(** ** controllers/topic.go *)
Module controllers.

(** [models.MongoQuery]: the [Slug] field, and the fields the controller
    never names, of a type [Q]. *)
Record MongoQuery (Q : Type) : Type := mkMongoQuery {
  Slug : string;
  others : Q
}.
Arguments mkMongoQuery {Q} _ _.
Arguments Slug {Q} _.
Arguments others {Q} _.

(** The values the topic handlers store in a [gin.H]. *)
Inductive value (Topic : Type) : Type :=
| VString (s : string)
| VTopics (records : slice Topic)
| VTopic (record : Topic)
| VMeta (meta : models.MetaOfResponse).
Arguments VString {Topic} s.
Arguments VTopics {Topic} records.
Arguments VTopic {Topic} record.
Arguments VMeta {Topic} meta.

(** What a handler hands back: [(int, gin.H, error)]. *)
Abbreviation response Topic := (Z * gin.H (value Topic) * option error)%type.

(** What [topic.go] uses from the rest of package [controllers]. *)
Class Env (Topic Q : Type) : Type := {
  (** [nc.GetQueryParam(c)]: [(err, mq, limit, offset, sort, full)] *)
  GetQueryParam : gin.Context -> option error * MongoQuery Q * Z * Z * string * bool;
  toPostResponse : error -> response Topic;
  (** the zero value of the fields of [models.MongoQuery] other than [Slug] *)
  zeroQ : Q
}.

(** [storage.NewsStorage], as far as [topic.go] calls it. *)
Class NewsStorage (W Topic Q : Type) : Type := {
  GetFullTopics : MongoQuery Q -> Z -> Z -> string -> slice string ->
                  W -> (slice Topic * Z * option error) * W;
  GetMetaOfTopics : MongoQuery Q -> Z -> Z -> string -> slice string ->
                    W -> (slice Topic * Z * option error) * W
}.

Record NewsController (W Topic Q : Type) : Type :=
  mkNewsController { Storage : NewsStorage W Topic Q }.
Arguments Storage {W Topic Q} _.

(** Calls to storage, with their arguments and what they returned. *)
Inductive event (Topic Q : Type) : Type :=
| EvGetFullTopics (mq : MongoQuery Q) (limit offset : Z) (sort : string)
                  (embedded : slice string) (res : slice Topic * Z * option error)
| EvGetMetaOfTopics (mq : MongoQuery Q) (limit offset : Z) (sort : string)
                    (embedded : slice string) (res : slice Topic * Z * option error).
Arguments EvGetFullTopics {Topic Q}.
Arguments EvGetMetaOfTopics {Topic Q}.

Section News.
Context {W Topic Q : Type} `{!Env Topic Q}.

Local Open Scope eff_scope.

Abbreviation M := (Eff.M W (event Topic Q)).

Definition call {A} (f : W -> A * W) (ev : A -> event Topic Q) : M A :=
  fun w => let '(a, w') := f w in (Eff.Done a, w', [ev a]).

(** GetTopics receive HTTP GET method request, and return the topics.
    [query], [limit], [offset] and [sort] are the url query params,
    which define the rule we retrieve topics from storage. *)
Definition GetTopics (nc : NewsController W Topic Q) (c : gin.Context)
  : M (response Topic) :=
  let total : Z := 0 in
  let topics : slice Topic := make_slice [] in
  let '(err, mq, limit, offset, sort, full) := GetQueryParam c in
  (* response empty records if parsing url query param occurs error *)
  match err with
  | Some _ =>
      Eff.ret (http.StatusOK,
               {[ "status" := VString "ok";
                  "records" := VTopics topics;
                  "meta" := VMeta (models.mkMeta total offset limit) ]},
               None)
  | None =>
      let limit := if limit =? 0 then 10 else limit in
      let sort := if String.eqb sort "" then "-publishedDate" else sort in
      '(topics, total, err) <-
        (if full
         then call (GetFullTopics (NewsStorage := Storage nc) mq limit offset sort nil_slice)
                   (EvGetFullTopics mq limit offset sort nil_slice)
         else call (GetMetaOfTopics (NewsStorage := Storage nc) mq limit offset sort nil_slice)
                   (EvGetMetaOfTopics mq limit offset sort nil_slice)) ;;
      match err with
      | Some err => Eff.ret (toPostResponse err)
      | None =>
          (* make sure [response.records] would be [[]] rather than [null] *)
          let topics := if is_nil topics then make_slice [] else topics in
          Eff.ret (http.StatusOK,
                   {[ "status" := VString "ok";
                      "records" := VTopics topics;
                      "meta" := VMeta (models.mkMeta total offset limit) ]},
                   None)
      end
  end.

(** GetATopic receive HTTP GET method request, and return the certain post. *)
Definition GetATopic (nc : NewsController W Topic Q) (c : gin.Context)
  : M (response Topic) :=
  let slug := gin.Param c "slug" in
  let '(full, _) := strconv.ParseBool (gin.Query c "full") in
  let mq := mkMongoQuery slug zeroQ in
  '(topics, _, err) <-
    (if full
     then call (GetFullTopics (NewsStorage := Storage nc) mq 1 0 "-publishedDate" nil_slice)
               (EvGetFullTopics mq 1 0 "-publishedDate" nil_slice)
     else call (GetMetaOfTopics (NewsStorage := Storage nc) mq 1 0 "-publishedDate" nil_slice)
               (EvGetMetaOfTopics mq 1 0 "-publishedDate" nil_slice)) ;;
  match err with
  | Some err => Eff.ret (toPostResponse err)
  | None =>
      if len topics =? 0 then
        Eff.ret (http.StatusNotFound,
                 {[ "status" := VString "Record Not Found";
                    "error" := VString "Record Not Found" ]},
                 None)
      else
        match first topics with
        | Some record =>
            Eff.ret (http.StatusOK,
                     {[ "status" := VString "ok"; "record" := VTopic record ]},
                     None)
        | None => Eff.panic "index out of range"
        end
  end.
End News.

(** Reading a response. *)
Definition body {Topic} (r : response Topic) : gin.H (value Topic) := snd (fst r).

Definition records {Topic} (r : response Topic) : option (slice Topic) :=
  match body r !! "records" with
  | Some (VTopics ts) => Some ts
  | _ => None
  end.

Definition meta {Topic} (r : response Topic) : option models.MetaOfResponse :=
  match body r !! "meta" with
  | Some (VMeta m) => Some m
  | _ => None
  end.

(** The error a storage call reported, if any. *)
Definition storageError {Topic Q} (e : event Topic Q) : option error :=
  match e with
  | EvGetFullTopics _ _ _ _ _ (_, _, err) => err
  | EvGetMetaOfTopics _ _ _ _ _ (_, _, err) => err
  end.

(** The request [c] with its query parameter [key] set to [value]. *)
Definition withQuery (c : gin.Context) (key val : string) : gin.Context :=
  gin.mkContext
    (gin.mkRequest (<[key := [val]]> (gin.URL_Query (gin.Request_ c)))
                   (gin.Form (gin.Request_ c)))
    (gin.Params c).
End controllers.

(** ** A small concrete world

    Stand-ins for the collaborators, on which the handlers can be run: an
    in-memory user table keyed by the external account id, an OAuth provider
    that accepts the code [good], and an in-memory list of topic slugs. *)
Module Demo.

(** *** for the Facebook controller *)

Definition world : Type := list (string * models.User).

Fixpoint lookupUser (aid : string) (w : world) : option models.User :=
  match w with
  | [] => None
  | (k, u) :: r => if String.eqb k aid then Some u else lookupUser aid r
  end.

Definition errorText (e : error) : string :=
  match e with
  | errors_New t => t
  | EscapeError s => "invalid URL escape " ++ s
  | url_Error op _ _ => op
  | NumError f _ _ => f
  | AppError m _ _ _ => m
  end.

Definition toNullString (s : string) : sql.NullString :=
  sql.mkNullString s (negb (String.eqb s "")).

(** The profile document is taken to be the bare account id. *)
Definition profileField (json path : string) : string :=
  if String.eqb path "id" then json else "".

#[export] Instance env : facebook.Env world := {|
  facebook.Error := errorText;
  facebook.constants_Facebook := "Facebook";
  facebook.Cfg :=
    utils.mkConfig
      (utils.mkFacebookSettings "app-id" "app-secret"
         "https://go-api.twreporter.org/v1/auth/facebook/callback" "anti-forgery")
      "https://www.twreporter.org";
  facebook.facebook_Endpoint :=
    oauth2.mkEndpoint "https://www.facebook.com/dialog/oauth"
                      "https://graph.facebook.com/oauth/access_token";
  facebook.ToNullString := toNullString;
  facebook.GetGender := toNullString;
  facebook.gjson_Get_Str := profileField;
  facebook.RetrieveToken := fun id _ _ _ _ w =>
    (if id =? 0 then ("", Some (errors_New "no such user")) else ("abc", None), w);
  facebook.Exchange := fun _ code w =>
    (if String.eqb code "good" then inl (oauth2.mkToken "access")
     else inr (errors_New "bad verification code"), w);
  facebook.http_Get := fun _ w => (None, w);
  facebook.ReadAll := fun w => (("1234", None), w);
  facebook.Body_Close := fun w => w
|}.

#[export] Instance userStorage : facebook.UserStorage world := {|
  facebook.GetUserDataByOAuth := fun a w =>
    (match lookupUser (sql.String_ (models.AId a)) w with
     | Some u => (u, None)
     | None => (models.zeroUser, Some (errors_New "record not found"))
     end, w);
  facebook.InsertUserByOAuth := fun a w =>
    let u := models.mkUser (Z.of_nat (S (length w))) 1 (models.FirstName a)
                           (models.LastName a) (models.Email a) in
    ((u, None), (sql.String_ (models.AId a), u) :: w);
  facebook.UpdateOAuthData := fun a w => ((a, None), w)
|}.

Definition controller : facebook.Facebook world := facebook.mkFacebook world userStorage.

Definition values (l : list (string * string)) : url.Values :=
  foldr (fun kv v => url.Add (fst kv) (snd kv) v) ∅ l.

(** A callback [?location=...&state=...&code=...]. *)
Definition callback (location state code : string) : gin.Context :=
  let q := values [("location", location); ("state", state); ("code", code)] in
  gin.mkContext (gin.mkRequest q q) [].

Definition knownUser : models.User :=
  models.mkUser 7 1 (toNullString "Ada") (toNullString "Lovelace")
                (toNullString "ada@example.org").

(** The store after an earlier [BeginAuth] has set [oauthConf]. *)
Definition started (w : world) : facebook.store world :=
  Eff.store (facebook.BeginAuth controller (callback "" "" "")
               (facebook.mkStore w None)).

(** *** for the topic controller *)

Definition Topic : Type := string.

(** A query that parses unless [where] is present and is not [{}]. *)
Definition getQueryParam (c : gin.Context)
  : option error * controllers.MongoQuery unit * Z * Z * string * bool :=
  let filter := gin.Query c "where" in
  let limit := if String.eqb (gin.Query c "limit") "5" then 5 else 0 in
  let offset := if String.eqb (gin.Query c "offset") "2" then 2 else 0 in
  let full := fst (strconv.ParseBool (gin.Query c "full")) in
  (if String.eqb filter "" || String.eqb filter "{}" then None
   else Some (errors_New "invalid character in where"),
   controllers.mkMongoQuery "" tt, limit, offset, gin.Query c "sort", full).

#[export] Instance newsEnv : controllers.Env Topic unit := {|
  controllers.GetQueryParam := getQueryParam;
  controllers.toPostResponse := fun err =>
    (500,
     {[ "status" := controllers.VString "Internal Server Error";
        "error" := controllers.VString (errorText err) ]},
     None);
  controllers.zeroQ := tt
|}.

(** The topics whose slug matches; a [nil] slice when there is none. *)
Definition findTopics (mq : controllers.MongoQuery unit) (limit offset : Z)
    (w : list Topic) : slice Topic * Z * option error :=
  let found :=
    if String.eqb (controllers.Slug mq) "" then w
    else List.filter (String.eqb (controllers.Slug mq)) w in
  (match found with
   | [] => nil_slice
   | _ => make_slice (take (Z.to_nat limit) (drop (Z.to_nat offset) found))
   end,
   Z.of_nat (length found), None).

#[export] Instance newsStorage : controllers.NewsStorage (list Topic) Topic unit := {|
  controllers.GetFullTopics := fun mq limit offset _ _ w => (findTopics mq limit offset w, w);
  controllers.GetMetaOfTopics := fun mq limit offset _ _ w => (findTopics mq limit offset w, w)
|}.

Definition news : controllers.NewsController (list Topic) Topic unit :=
  controllers.mkNewsController _ _ _ newsStorage.

(** A request for [/topics/:slug?...]. *)
Definition request (slug : string) (query : list (string * string)) : gin.Context :=
  gin.mkContext (gin.mkRequest (values query) (values query)) [("slug", slug)].
End Demo.

(** ** Further readings of a trace *)
Module Reading.
Definition is_close (e : facebook.event) : bool :=
  match e with facebook.EvClose => true | _ => false end.

(** A profile request that came back with a response, whose body is then
    open. *)
Definition is_fetched (e : facebook.event) : bool :=
  match e with facebook.EvGet _ None => true | _ => false end.

Definition is_token (e : facebook.event) : bool :=
  match e with facebook.EvRetrieveToken _ _ _ _ _ _ => true | _ => false end.

Definition is_redirect (e : facebook.event) : bool :=
  match e with facebook.EvRedirect _ _ => true | _ => false end.

Definition is_full {Topic Q} (e : controllers.event Topic Q) : bool :=
  match e with controllers.EvGetFullTopics _ _ _ _ _ _ => true | _ => false end.

(** The literals [strconv.ParseBool] reads as true. *)
Definition trueLiterals : list string := ["1"; "t"; "T"; "true"; "TRUE"; "True"].
End Reading.

(** ** The small world with a provider endpoint that does not parse *)
Module Misconfigured.
Definition env : facebook.Env Demo.world := {|
  facebook.Error := Demo.errorText;
  facebook.constants_Facebook := "Facebook";
  facebook.Cfg := facebook.Cfg (Env := Demo.env);
  facebook.facebook_Endpoint := oauth2.mkEndpoint ":dialog/oauth" ":oauth/access_token";
  facebook.ToNullString := Demo.toNullString;
  facebook.GetGender := Demo.toNullString;
  facebook.gjson_Get_Str := Demo.profileField;
  facebook.RetrieveToken := facebook.RetrieveToken (Env := Demo.env);
  facebook.Exchange := facebook.Exchange (Env := Demo.env);
  facebook.http_Get := facebook.http_Get (Env := Demo.env);
  facebook.ReadAll := facebook.ReadAll (Env := Demo.env);
  facebook.Body_Close := facebook.Body_Close (Env := Demo.env)
|}.
End Misconfigured.

(** * Properties of the Facebook controller *)
Section FacebookProperties.
Context {W : Type} `{!facebook.Env W}.

Import facebook.

Abbreviation loginPath := (utils.AppSettings_Path Cfg ++ "/login").
Abbreviation stateString := (utils.Statestr (utils.OauthSettings_FacebookSettings Cfg)).

Ltac run :=
  cbv beta delta [Eff.bind Eff.ret Eff.emit Eff.get Eff.put Eff.panic call
                  Eff.events Eff.result Eff.store] iota; cbn [fst snd world oauthConf].

(** A call that fails on the state check does nothing but redirect. *)
Lemma getRemoteUserData_forged (r : gin.Request) (s : store W) :
  gin.FormValue r "state" <> stateString ->
  getRemoteUserData r s =
    (Eff.Done ("", Some (models.NewAppError "OAuth state" "controllers.oauth.facebook"
                                            "Invalid oauth state" 500)),
     s, [EvRedirect loginPath http.StatusTemporaryRedirect]).
Proof.
  intros Hne. unfold getRemoteUserData.
  apply String.eqb_neq in Hne. rewrite Hne. reflexivity.
Qed.

(** A call that succeeds made exactly four calls, none of them to storage
    and none of them a write to the response, and left [oauthConf] alone. *)
Lemma getRemoteUserData_ok (r : gin.Request) (s s1 : store W) fstring t1 :
  getRemoteUserData r s = (Eff.Done (fstring, None), s1, t1) ->
  exists token target,
    t1 = [EvExchange (gin.FormValue r "code") (inl token); EvGet target None;
          EvReadAll (fstring, None); EvClose]
    /\ oauthConf s1 = oauthConf s.
Proof.
  unfold getRemoteUserData.
  destruct (negb _); [discriminate|].
  run. destruct (oauthConf s) as [conf|] eqn:Hc; [|discriminate].
  destruct (Exchange _ _ _) as [[token|err] w1]; run; [|discriminate].
  destruct (http_Get _ _) as [[err|] w2]; run; [discriminate|].
  destruct (ReadAll _) as [[response [err|]] w3]; run; [discriminate|].
  intros Heq. inversion Heq; subst. eauto.
Qed.

(** [Authenticate] after the profile has been fetched. *)
Lemma Authenticate_after_profile (o : Facebook W) (c : gin.Context) (s s1 : store W)
      fstring t1 :
  getRemoteUserData (gin.Request_ c) s = (Eff.Done (fstring, None), s1, t1) ->
  let a := remoteOauthOf fstring in
  let '(found, w2) := GetUserDataByOAuth (UserStorage := Storage o) a (world s1) in
  let '(reconciled, w3) :=
    match snd found with
    | Some _ =>
        let '(res, w) := InsertUserByOAuth (UserStorage := Storage o) a w2 in
        (EvInsertUserByOAuth a res, w)
    | None =>
        let '(res, w) := UpdateOAuthData (UserStorage := Storage o) a w2 in
        (EvUpdateOAuthData a res, w)
    end in
  let matchUser := fst found in
  let '(issued, w4) :=
    RetrieveToken (models.ID matchUser) (models.Privilege matchUser)
      (sql.String_ (models.UserFirstName matchUser))
      (sql.String_ (models.UserLastName matchUser))
      (sql.String_ (models.UserEmail matchUser)) w3 in
  Authenticate o c s =
    (Eff.Done tt, mkStore w4 (oauthConf s1),
     t1 ++ [EvGetUserDataByOAuth a found; reconciled;
            EvRetrieveToken (models.ID matchUser) (models.Privilege matchUser)
              (sql.String_ (models.UserFirstName matchUser))
              (sql.String_ (models.UserLastName matchUser))
              (sql.String_ (models.UserEmail matchUser)) issued;
            tokenResponse (gin.Query c "location") (fst issued)])%list.
Proof.
  intros Hok a. unfold Authenticate, tokenResponse. run. rewrite Hok. fold a.
  destruct (GetUserDataByOAuth a (world s1)) as [[matchUser [e|]] w2]; run.
  - destruct (InsertUserByOAuth a w2) as [res w3]; run.
    destruct (RetrieveToken _ _ _ _ _ w3) as [[token terr] w4]; run.
    destruct (url.Parse _); reflexivity.
  - destruct (UpdateOAuthData a w2) as [res w3]; run.
    destruct (RetrieveToken _ _ _ _ _ w3) as [[token terr] w4]; run.
    destruct (url.Parse _); reflexivity.
Qed.



(** C2.  When the [state] form value differs from the configured
    anti-forgery string, [getRemoteUserData] does nothing but redirect the
    browser to the login path and returns an error: its trace holds no
    token exchange, and neither does the trace of [Authenticate]. *)
Theorem getRemoteUserData_forged_state_never_exchanges
        (r : gin.Request) (s : store W) :
  gin.FormValue r "state" <> stateString ->
  Eff.events (getRemoteUserData r s)
    = [EvRedirect loginPath http.StatusTemporaryRedirect]
  /\ (exists err, Eff.result (getRemoteUserData r s) = Eff.Done ("", Some err))
  /\ count is_exchange (Eff.events (getRemoteUserData r s)) = 0%nat
  /\ forall (o : Facebook W) (c : gin.Context),
       gin.Request_ c = r ->
       count is_exchange (Eff.events (Authenticate o c s)) = 0%nat.
Proof.
  intros Hne. pose proof (getRemoteUserData_forged r s Hne) as Hrun.
  rewrite Hrun. repeat split; eauto.
  intros o c Hc. unfold Authenticate. run. rewrite Hc, Hrun. reflexivity.
Qed.

(** C6.  Once the profile is decoded, a failed lookup is followed by
    exactly one [InsertUserByOAuth] and no [UpdateOAuthData]; a successful
    lookup by no insert and exactly one update.  The storage calls of the
    whole request are the lookup and that one call, both for the decoded
    account. *)
Theorem Authenticate_inserts_or_updates
        (o : Facebook W) (c : gin.Context) (s s1 : store W) fstring t1 :
  getRemoteUserData (gin.Request_ c) s = (Eff.Done (fstring, None), s1, t1) ->
  let a := remoteOauthOf fstring in
  let found := GetUserDataByOAuth (UserStorage := Storage o) a (world s1) in
  let t := Eff.events (Authenticate o c s) in
  match snd (fst found) with
  | Some _ =>
      count is_insert t = 1%nat /\ count is_update t = 0%nat
      /\ List.filter is_storage_call t
         = [EvGetUserDataByOAuth a (fst found);
            EvInsertUserByOAuth a
              (fst (InsertUserByOAuth (UserStorage := Storage o) a (snd found)))]
  | None =>
      count is_insert t = 0%nat /\ count is_update t = 1%nat
      /\ List.filter is_storage_call t
         = [EvGetUserDataByOAuth a (fst found);
            EvUpdateOAuthData a
              (fst (UpdateOAuthData (UserStorage := Storage o) a (snd found)))]
  end.
Proof.
  intros Hok a found t. subst t found.
  pose proof (Authenticate_after_profile o c s s1 fstring t1 Hok) as Hrun.
  destruct (getRemoteUserData_ok _ _ _ _ _ Hok) as (token & target & -> & _).
  cbv zeta in Hrun. fold a in Hrun.
  destruct (GetUserDataByOAuth a (world s1)) as [[matchUser [e|]] w2];
    cbn [fst snd] in *.
  - destruct (InsertUserByOAuth a w2) as [res w3].
    destruct (RetrieveToken _ _ _ _ _ w3) as [issued w4].
    rewrite Hrun. unfold tokenResponse.
    destruct (url.Parse _); repeat split; reflexivity.
  - destruct (UpdateOAuthData a w2) as [res w3].
    destruct (RetrieveToken _ _ _ _ _ w3) as [issued w4].
    rewrite Hrun. unfold tokenResponse.
    destruct (url.Parse _); repeat split; reflexivity.
Qed.

(** C8.  On the first-login path the result of [InsertUserByOAuth] is
    dropped: whatever it returns, the next call is [RetrieveToken], on the
    fields of the record that the failed lookup handed back -- the
    zero-valued one -- and the response is built from that token alone. *)
Theorem Authenticate_first_login_ignores_insert
        (o : Facebook W) (c : gin.Context) (s s1 : store W) fstring t1 e w2 :
  getRemoteUserData (gin.Request_ c) s = (Eff.Done (fstring, None), s1, t1) ->
  GetUserDataByOAuth (UserStorage := Storage o) (remoteOauthOf fstring) (world s1)
    = ((models.zeroUser, Some e), w2) ->
  forall inserted w3 issued w4,
    InsertUserByOAuth (UserStorage := Storage o) (remoteOauthOf fstring) w2
      = (inserted, w3) ->
    RetrieveToken 0 0 "" "" "" w3 = (issued, w4) ->
    Authenticate o c s =
      (Eff.Done tt, mkStore w4 (oauthConf s1),
       t1 ++ [EvGetUserDataByOAuth (remoteOauthOf fstring) (models.zeroUser, Some e);
              EvInsertUserByOAuth (remoteOauthOf fstring) inserted;
              EvRetrieveToken 0 0 "" "" "" issued;
              tokenResponse (gin.Query c "location") (fst issued)])%list.
Proof.
  intros Hok Hfound inserted w3 issued w4 Hins Htok.
  pose proof (Authenticate_after_profile o c s s1 fstring t1 Hok) as Hrun.
  cbv zeta in Hrun. rewrite Hfound in Hrun. cbn [fst snd] in Hrun.
  rewrite Hins in Hrun. cbn [models.zeroUser models.ID models.Privilege
    models.UserFirstName models.UserLastName models.UserEmail sql.String_] in Hrun.
  rewrite Htok in Hrun. exact Hrun.
Qed.

End FacebookProperties.

(** * Properties of the topic controllers *)
Section TopicProperties.
Context {W Topic Q : Type} `{!controllers.Env Topic Q}.

Import controllers.

Ltac run :=
  cbv beta delta [Eff.bind Eff.ret Eff.emit Eff.panic call
                  Eff.events Eff.result Eff.store] iota; cbn [fst snd].

(** The envelope [GetTopics] builds on its two successful paths. *)
Abbreviation page ts total offset limit :=
  ({[ "status" := VString "ok";
      "records" := VTopics ts;
      "meta" := VMeta (models.mkMeta total offset limit) ]} : gin.H (value Topic)).

Lemma records_page (ts : slice Topic) total offset limit code err :
  records (code, page ts total offset limit, err) = Some ts.
Proof.
  unfold records, body. cbn [fst snd].
  rewrite lookup_insert_ne by discriminate. rewrite lookup_insert_eq. reflexivity.
Qed.

Lemma meta_page (ts : slice Topic) total offset limit code err :
  meta (code, page ts total offset limit, err) = Some (models.mkMeta total offset limit).
Proof.
  unfold meta, body. cbn [fst snd].
  do 2 rewrite lookup_insert_ne by discriminate. rewrite lookup_singleton_eq. reflexivity.
Qed.

(** [GetTopics] when the query does not parse. *)
Lemma GetTopics_parse_error (nc : NewsController W Topic Q) (c : gin.Context) (w : W)
      e mq limit offset sort full :
  GetQueryParam c = (Some e, mq, limit, offset, sort, full) ->
  GetTopics nc c w
    = (Eff.Done (http.StatusOK, page (make_slice []) 0 offset limit, None), w, []).
Proof. intros Hq. unfold GetTopics. rewrite Hq. reflexivity. Qed.

(** [GetTopics] when the query parses: one storage call, with the
    defaults filled in, and the response made of its result. *)
Lemma GetTopics_parsed (nc : NewsController W Topic Q) (c : gin.Context) (w : W)
      mq limit offset sort full :
  GetQueryParam c = (None, mq, limit, offset, sort, full) ->
  let limit' := if limit =? 0 then 10 else limit in
  let sort' := if String.eqb sort "" then "-publishedDate" else sort in
  let res :=
    (if full then GetFullTopics (NewsStorage := Storage nc)
     else GetMetaOfTopics (NewsStorage := Storage nc))
      mq limit' offset sort' nil_slice w in
  GetTopics nc c w =
    (Eff.Done
       match fst res with
       | (_, _, Some err) => toPostResponse err
       | (topics, total, None) =>
           (http.StatusOK,
            page (if is_nil topics then make_slice [] else topics) total offset limit',
            None)
       end,
     snd res,
     [(if full then EvGetFullTopics else EvGetMetaOfTopics)
        mq limit' offset sort' nil_slice (fst res)]).
Proof.
  intros Hq limit' sort' res. subst res. unfold GetTopics. rewrite Hq.
  fold limit' sort'. run.
  destruct full; run.
  - destruct (GetFullTopics _ _ _ _ _ _) as [[[topics total] [err|]] w']; reflexivity.
  - destruct (GetMetaOfTopics _ _ _ _ _ _) as [[[topics total] [err|]] w']; reflexivity.
Qed.

(** [GetATopic]: one storage call, on the slug alone, and the response
    made of its result.  [full] is what [ParseBool] makes of the query
    parameter, its error dropped. *)
Lemma GetATopic_run (nc : NewsController W Topic Q) (c : gin.Context) (w : W) :
  let full := fst (strconv.ParseBool (gin.Query c "full")) in
  let mq := mkMongoQuery (gin.Param c "slug") zeroQ in
  let res :=
    (if full then GetFullTopics (NewsStorage := Storage nc)
     else GetMetaOfTopics (NewsStorage := Storage nc))
      mq 1 0 "-publishedDate" nil_slice w in
  GetATopic nc c w =
    (match fst res with
     | (_, _, Some err) => Eff.Done (toPostResponse err)
     | (topics, _, None) =>
         if len topics =? 0 then
           Eff.Done (http.StatusNotFound,
                     {[ "status" := VString "Record Not Found";
                        "error" := VString "Record Not Found" ]},
                     None)
         else
           match first topics with
           | Some record =>
               Eff.Done (http.StatusOK,
                         {[ "status" := VString "ok"; "record" := VTopic record ]},
                         None)
           | None => Eff.Panic "index out of range"
           end
     end,
     snd res,
     [(if full then EvGetFullTopics else EvGetMetaOfTopics)
        mq 1 0 "-publishedDate" nil_slice (fst res)]).
Proof.
  intros full mq res. subst res. unfold GetATopic.
  destruct (strconv.ParseBool _) as [b perr]. cbn [fst] in full. subst full.
  fold mq. run.
  destruct b; run.
  - destruct (GetFullTopics _ _ _ _ _ _) as [[[topics total] [err|]] w']; run;
      [reflexivity|].
    destruct (len topics =? 0); [reflexivity|]. destruct (first topics); reflexivity.
  - destruct (GetMetaOfTopics _ _ _ _ _ _) as [[[topics total] [err|]] w']; run;
      [reflexivity|].
    destruct (len topics =? 0); [reflexivity|]. destruct (first topics); reflexivity.
Qed.

(** A slice with elements has a first one. *)
Lemma first_of_nonempty (ts : slice Topic) :
  len ts <> 0 -> exists record, first ts = Some record.
Proof.
  destruct ts as [|[|x l]]; intros Hlen;
    [exfalso; apply Hlen; reflexivity ..|cbn; eauto].
Qed.

(** What [ParseBool] rejects it reads as [false]. *)
Lemma ParseBool_rejected (str : string) :
  snd (strconv.ParseBool str) <> None -> fst (strconv.ParseBool str) = false.
Proof.
  unfold strconv.ParseBool.
  destruct (existsb _ _); [cbn; congruence|].
  destruct (existsb _ _); reflexivity.
Qed.

(** C3.  When the query parameters do not parse, [GetTopics] answers 200
    with no error; the body is the success envelope with an empty, non-nil
    [records] and [meta.total] 0, and storage is not called. *)
Theorem GetTopics_parse_error_empty_page
        (nc : NewsController W Topic Q) (c : gin.Context) (w : W)
        e mq limit offset sort full :
  GetQueryParam c = (Some e, mq, limit, offset, sort, full) ->
  exists r,
    Eff.result (GetTopics nc c w) = Eff.Done r
    /\ fst (fst r) = http.StatusOK
    /\ snd r = None
    /\ body r !! "status" = Some (VString "ok")
    /\ records r = Some (make_slice [])
    /\ models.Total <$> meta r = Some 0
    /\ Eff.events (GetTopics nc c w) = []
    /\ Eff.store (GetTopics nc c w) = w.
Proof.
  intros Hq. rewrite (GetTopics_parse_error nc c w _ _ _ _ _ _ Hq).
  eexists. split; [reflexivity|].
  rewrite records_page, meta_page. repeat split.
Qed.


(** C5.  When the query parses with [limit] 0 and an empty [sort], the one
    storage call carries limit 10 and sort [-publishedDate].  If moreover
    the offset is 0 and storage reports no topics and a total of 0, the
    answer is 200 with status [ok], [records] the empty sequence and
    [meta] total 0, offset 0, limit 10. *)
Theorem GetTopics_defaults
        (nc : NewsController W Topic Q) (c : gin.Context) (w : W) mq offset full :
  GetQueryParam c = (None, mq, 0, offset, "", full) ->
  exists res,
    Eff.events (GetTopics nc c w)
      = [(if full then EvGetFullTopics else EvGetMetaOfTopics)
           mq 10 offset "-publishedDate" nil_slice res]
    /\ (forall topics,
          offset = 0 -> res = (topics, 0, None) -> len topics = 0 ->
          Eff.result (GetTopics nc c w)
            = Eff.Done (http.StatusOK,
                        {[ "status" := VString "ok";
                           "records" := VTopics (make_slice []);
                           "meta" := VMeta (models.mkMeta 0 0 10) ]},
                        None)).
Proof.
  intros Hq. pose proof (GetTopics_parsed nc c w _ _ _ _ _ Hq) as Hrun.
  cbv zeta in Hrun. cbn [Z.eqb String.eqb] in Hrun. rewrite Hrun. clear Hrun.
  cbn [Eff.events Eff.result fst snd].
  eexists. split; [reflexivity|].
  intros topics -> -> Hlen. cbn [fst].
  destruct topics as [|[|x l]]; [reflexivity| reflexivity |].
  cbn in Hlen. lia.
Qed.

(** C7.  [GetATopic] makes one storage call, with the requested slug as
    the whole filter, limit 1, offset 0 and sort [-publishedDate].  When
    that call succeeds with no topic the answer is 404 with status and
    error [Record Not Found]; when it succeeds with topics the answer is
    200 with the first of them under [record]. *)
Theorem GetATopic_lookup_by_slug
        (nc : NewsController W Topic Q) (c : gin.Context) (w : W) :
  exists (full : bool) topics total err,
    Eff.events (GetATopic nc c w)
      = [(if full then EvGetFullTopics else EvGetMetaOfTopics)
           (mkMongoQuery (gin.Param c "slug") zeroQ) 1 0 "-publishedDate" nil_slice
           (topics, total, err)]
    /\ match err with
       | Some e => Eff.result (GetATopic nc c w) = Eff.Done (toPostResponse e)
       | None =>
           if len topics =? 0 then
             Eff.result (GetATopic nc c w)
               = Eff.Done (http.StatusNotFound,
                           {[ "status" := VString "Record Not Found";
                              "error" := VString "Record Not Found" ]},
                           None)
           else
             exists record,
               first topics = Some record
               /\ Eff.result (GetATopic nc c w)
                  = Eff.Done (http.StatusOK,
                              {[ "status" := VString "ok";
                                 "record" := VTopic record ]},
                              None)
       end.
Proof.
  pose proof (GetATopic_run nc c w) as Hrun. cbv zeta in Hrun. rewrite Hrun. clear Hrun.
  cbn [Eff.events Eff.result fst snd].
  match goal with
  | |- context [fst ?call] => destruct call as [[[topics total] err] w']
  end.
  cbn [fst]. exists (fst (strconv.ParseBool (gin.Query c "full"))), topics, total, err.
  split; [reflexivity|].
  destruct err as [e|]; [reflexivity|].
  destruct (len topics =? 0) eqn:Hlen; [reflexivity|].
  apply Z.eqb_neq in Hlen.
  destruct (first_of_nonempty topics Hlen) as [record Hrec].
  exists record. rewrite Hrec. split; reflexivity.
Qed.

(** C9.  On the parse-error path the envelope echoes the limit and offset
    that the failed parse produced; the defaults are not applied, so a
    failed parse with limit 0 answers [meta.limit] 0, not 10. *)
Theorem GetTopics_parse_error_echoes_parsed_limit
        (nc : NewsController W Topic Q) (c : gin.Context) (w : W)
        e mq limit offset sort full :
  GetQueryParam c = (Some e, mq, limit, offset, sort, full) ->
  exists r,
    Eff.result (GetTopics nc c w) = Eff.Done r
    /\ meta r = Some (models.mkMeta 0 offset limit)
    /\ (limit = 0 ->
        models.Limit <$> meta r = Some 0 /\ models.Limit <$> meta r <> Some 10).
Proof.
  intros Hq. rewrite (GetTopics_parse_error nc c w _ _ _ _ _ _ Hq).
  eexists. split; [reflexivity|]. rewrite meta_page.
  split; [reflexivity|]. intros ->. split; [reflexivity|discriminate].
Qed.

(** C10.  A [full] parameter that is not a boolean literal is read as
    false: the meta projection is queried, and the whole run is the one of
    the same request with [full=false]. *)
Theorem GetATopic_malformed_full_is_false
        (nc : NewsController W Topic Q) (c : gin.Context) (w : W) :
  snd (strconv.ParseBool (gin.Query c "full")) <> None ->
  (exists res,
     Eff.events (GetATopic nc c w)
       = [EvGetMetaOfTopics (mkMongoQuery (gin.Param c "slug") zeroQ)
            1 0 "-publishedDate" nil_slice res])
  /\ GetATopic nc c w = GetATopic nc (withQuery c "full" "false") w.
Proof.
  intros Hbad. apply ParseBool_rejected in Hbad.
  pose proof (GetATopic_run nc c w) as Hrun.
  pose proof (GetATopic_run nc (withQuery c "full" "false") w) as Hrun'.
  cbv zeta in Hrun, Hrun'. rewrite Hbad in Hrun.
  assert (gin.Query (withQuery c "full" "false") "full" = "false") as Hq.
  { unfold gin.Query, url.Get, withQuery. cbn [gin.Request_ gin.URL_Query].
    rewrite lookup_insert_eq. reflexivity. }
  rewrite Hq in Hrun'. change (fst (strconv.ParseBool "false")) with false in Hrun'.
  change (gin.Param (withQuery c "full" "false") "slug")
    with (gin.Param c "slug") in Hrun'.
  split.
  - rewrite Hrun. eexists. reflexivity.
  - rewrite Hrun, Hrun'. reflexivity.
Qed.
End TopicProperties.

(** * The properties on the small concrete world *)

Import Demo.



Lemma getRemoteUserData_forged_state_never_exchanges_witness :
  let c := Demo.callback "https://www.twreporter.org/a" "forged" "good" in
  let s := Demo.started [] in
  Eff.events (facebook.getRemoteUserData (gin.Request_ c) s)
    = [facebook.EvRedirect "https://www.twreporter.org/login" 307]
  /\ (exists err,
        Eff.result (facebook.getRemoteUserData (gin.Request_ c) s)
          = Eff.Done ("", Some err))
  /\ facebook.count facebook.is_exchange
       (Eff.events (facebook.getRemoteUserData (gin.Request_ c) s)) = 0%nat
  /\ forall (o : facebook.Facebook Demo.world) (c' : gin.Context),
       gin.Request_ c' = gin.Request_ c ->
       facebook.count facebook.is_exchange
         (Eff.events (facebook.Authenticate o c' s)) = 0%nat.
Proof.
  cbv zeta.
  assert (Hforged :
            gin.FormValue
              (gin.Request_ (Demo.callback "https://www.twreporter.org/a" "forged" "good"))
              "state"
            <> utils.Statestr (utils.OauthSettings_FacebookSettings facebook.Cfg))
    by (vm_compute; discriminate).
  exact (getRemoteUserData_forged_state_never_exchanges _ (Demo.started []) Hforged).
Defined.

Lemma Authenticate_inserts_or_updates_witness :
  let c := Demo.callback "https://www.twreporter.org/a" "anti-forgery" "good" in
  let first := Eff.events (facebook.Authenticate Demo.controller c (Demo.started [])) in
  let again :=
    Eff.events (facebook.Authenticate Demo.controller c
                  (Demo.started [("1234", Demo.knownUser)])) in
  (facebook.count facebook.is_insert first = 1%nat
   /\ facebook.count facebook.is_update first = 0%nat)
  /\ (facebook.count facebook.is_insert again = 0%nat
      /\ facebook.count facebook.is_update again = 1%nat).
Proof.
  intros c first again. subst first again. split.
  - eassert (Hok : facebook.getRemoteUserData (gin.Request_ c) (Demo.started [])
                   = (Eff.Done (_, None), _, _))
      by (vm_compute; reflexivity).
    pose proof (Authenticate_inserts_or_updates Demo.controller _ _ _ _ _ Hok) as H.
    cbv zeta in H. destruct H as (Hi & Hu & _). split; [exact Hi | exact Hu].
  - eassert (Hok : facebook.getRemoteUserData (gin.Request_ c)
                     (Demo.started [("1234", Demo.knownUser)])
                   = (Eff.Done (_, None), _, _))
      by (vm_compute; reflexivity).
    pose proof (Authenticate_inserts_or_updates Demo.controller _ _ _ _ _ Hok) as H.
    cbv zeta in H. destruct H as (Hi & Hu & _). split; [exact Hi | exact Hu].
Defined.

Lemma Authenticate_first_login_ignores_insert_witness :
  let c := Demo.callback "https://www.twreporter.org/a" "anti-forgery" "good" in
  let a := facebook.remoteOauthOf "1234" in
  exists t1 inserted,
    Eff.events (facebook.Authenticate Demo.controller c (Demo.started []))
    = (t1 ++
       [facebook.EvGetUserDataByOAuth a
          (models.zeroUser, Some (errors_New "record not found"));
        facebook.EvInsertUserByOAuth a inserted;
        facebook.EvRetrieveToken 0 0 "" "" "" ("", Some (errors_New "no such user"));
        facebook.EvRedirect "https://www.twreporter.org/a?token=" 307])%list.
Proof.
  intros c a. subst a.
  eassert (Hok : facebook.getRemoteUserData (gin.Request_ c) (Demo.started [])
                 = (Eff.Done (_, None), _, _))
    by (vm_compute; reflexivity).
  eassert (Hfound : facebook.GetUserDataByOAuth (facebook.remoteOauthOf "1234")
                      ([] : Demo.world)
                    = ((models.zeroUser, Some _), _))
    by (vm_compute; reflexivity).
  eassert (Hins : facebook.InsertUserByOAuth (facebook.remoteOauthOf "1234")
                    ([] : Demo.world) = (_, _))
    by (vm_compute; reflexivity).
  eassert (Htok : facebook.RetrieveToken 0 0 "" "" ""
                    (snd (facebook.InsertUserByOAuth (facebook.remoteOauthOf "1234")
                            ([] : Demo.world)))
                  = (_, _))
    by (vm_compute; reflexivity).
  pose proof (Authenticate_first_login_ignores_insert
                Demo.controller c _ _ _ _ _ _ Hok Hfound _ _ _ _ Hins Htok) as Hrun.
  rewrite Hrun. do 2 eexists. reflexivity.
Defined.

Lemma GetTopics_parse_error_empty_page_witness :
  let c := Demo.request "" [("where", "{")] in
  exists r,
    Eff.result (controllers.GetTopics Demo.news c []) = Eff.Done r
    /\ fst (fst r) = http.StatusOK
    /\ snd r = None
    /\ controllers.body r !! "status" = Some (controllers.VString "ok")
    /\ controllers.records r = Some (make_slice [])
    /\ models.Total <$> controllers.meta r = Some 0
    /\ Eff.events (controllers.GetTopics Demo.news c []) = []
    /\ Eff.store (controllers.GetTopics Demo.news c []) = [].
Proof.
  intros c.
  eassert (Hq : controllers.GetQueryParam c = (Some _, _, _, _, _, _))
    by (vm_compute; reflexivity).
  exact (GetTopics_parse_error_empty_page Demo.news c [] _ _ _ _ _ _ Hq).
Defined.


Lemma GetTopics_defaults_witness :
  let c := Demo.request "" [("full", "false")] in
  Eff.events (controllers.GetTopics Demo.news c [])
    = [controllers.EvGetMetaOfTopics (controllers.mkMongoQuery "" tt) 10 0
         "-publishedDate" nil_slice (nil_slice, 0, None)]
  /\ Eff.result (controllers.GetTopics Demo.news c [])
     = Eff.Done (200,
                 {[ "status" := controllers.VString "ok";
                    "records" := controllers.VTopics (make_slice []);
                    "meta" := controllers.VMeta (models.mkMeta 0 0 10) ]},
                 None).
Proof.
  intros c.
  assert (Hq : controllers.GetQueryParam c
               = (None, controllers.mkMongoQuery "" tt, 0, 0, "", false))
    by (vm_compute; reflexivity).
  destruct (GetTopics_defaults Demo.news c [] _ _ _ Hq) as (res & Hev & Hres).
  assert (Hcall : Eff.events (controllers.GetTopics Demo.news c [])
                  = [controllers.EvGetMetaOfTopics (controllers.mkMongoQuery "" tt) 10 0
                       "-publishedDate" nil_slice (nil_slice, 0, None)])
    by (vm_compute; reflexivity).
  split; [exact Hcall|].
  rewrite Hcall in Hev. injection Hev as Hev.
  exact (Hres nil_slice eq_refl (eq_sym Hev) eq_refl).
Defined.

Lemma GetTopics_parse_error_echoes_parsed_limit_witness :
  let c := Demo.request "" [("where", "{"); ("offset", "2")] in
  exists r,
    Eff.result (controllers.GetTopics Demo.news c []) = Eff.Done r
    /\ controllers.meta r = Some (models.mkMeta 0 2 0)
    /\ (0 = 0 ->
        models.Limit <$> controllers.meta r = Some 0
        /\ models.Limit <$> controllers.meta r <> Some 10).
Proof.
  intros c.
  eassert (Hq : controllers.GetQueryParam c = (Some _, _, 0, 2, _, _))
    by (vm_compute; reflexivity).
  exact (GetTopics_parse_error_echoes_parsed_limit Demo.news c [] _ _ _ _ _ _ Hq).
Defined.

Lemma GetATopic_malformed_full_is_false_witness :
  let c := Demo.request "a-topic" [("full", "yes")] in
  let w := ["a-topic"; "another"] in
  (exists res,
     Eff.events (controllers.GetATopic Demo.news c w)
       = [controllers.EvGetMetaOfTopics (controllers.mkMongoQuery "a-topic" tt)
            1 0 "-publishedDate" nil_slice res])
  /\ controllers.GetATopic Demo.news c w
     = controllers.GetATopic Demo.news (controllers.withQuery c "full" "false") w.
Proof.
  intros c w.
  assert (Hbad : snd (strconv.ParseBool (gin.Query c "full")) <> None)
    by (vm_compute; discriminate).
  exact (GetATopic_malformed_full_is_false Demo.news c w Hbad).
Defined.

(** [GetATopic] on a store that has the topic, and on one that does not. *)
Example GetATopic_found :
  Eff.result (controllers.GetATopic Demo.news (Demo.request "a-topic" []) ["a-topic"])
  = Eff.Done (200,
              {[ "status" := controllers.VString "ok";
                 "record" := controllers.VTopic ("a-topic" : Demo.Topic) ]},
              None).
Proof. vm_compute. reflexivity. Qed.

Example GetATopic_missing :
  Eff.result (controllers.GetATopic Demo.news (Demo.request "a-topic" []) ["another"])
  = Eff.Done (404,
              {[ "status" := controllers.VString "Record Not Found";
                 "error" := controllers.VString "Record Not Found" ]},
              None).
Proof. vm_compute. reflexivity. Qed.

(** The login flow from a fresh process: [BeginAuth] sets [oauthConf], and
    the callback of a first-time user ends in a redirect whose token is
    empty, the token having been asked for the zero-valued record. *)
Example first_login_end_to_end :
  let begin := facebook.BeginAuth Demo.controller
                 (Demo.callback "https://www.twreporter.org/a" "" "")
                 (facebook.mkStore [] None) in
  let done := facebook.Authenticate Demo.controller
                (Demo.callback "https://www.twreporter.org/a" "anti-forgery" "good")
                (Eff.store begin) in
  Eff.result begin = Eff.Done tt
  /\ List.last (Eff.events done) facebook.EvClose
     = facebook.EvRedirect "https://www.twreporter.org/a?token=" 307.
Proof. cbv zeta. split; vm_compute; reflexivity. Qed.

(** Without an earlier [BeginAuth] the callback dereferences the nil
    [oauthConf]. *)
Example callback_before_BeginAuth_panics :
  Eff.result (facebook.Authenticate Demo.controller
                (Demo.callback "https://www.twreporter.org/a" "anti-forgery" "good")
                (facebook.mkStore [] None))
  = Eff.Panic "invalid memory address or nil pointer dereference".
Proof. vm_compute. reflexivity. Qed.

(** * Query escaping and encoding *)

Lemma append_String (c : ascii) (s t : string) : String c s ++ t = String c (s ++ t).
Proof. reflexivity. Qed.

Lemma append_Empty (t : string) : "" ++ t = t.
Proof. reflexivity. Qed.

Lemma append_assoc (s t u : string) : (s ++ t) ++ u = s ++ (t ++ u).
Proof.
  induction s as [|c s IH]; [reflexivity|].
  rewrite !append_String. f_equal. exact IH.
Qed.

Lemma unescape_percent (h1 h2 : ascii) (r : string) (m : url.encoding) :
  url.unescape (String "%" (String h1 (String h2 r))) m
  = if url.ishex h1 && url.ishex h2 then
      match url.unescape r m with
      | inl t => inl (String (ascii_of_nat (url.unhex h1 * 16 + url.unhex h2)) t)
      | inr e => inr e
      end
    else inr (EscapeError (String "%" (String h1 (String h2 "")))).
Proof.
  cbn [url.unescape]. change (Ascii.eqb "%" "%") with true. cbv iota.
  unfold url.upTo3. cbn [substring]. destruct r; reflexivity.
Qed.

Lemma unescape_plain (c : ascii) (r : string) (m : url.encoding) :
  Ascii.eqb c "%" = false ->
  url.unescape (String c r) m
  = match url.unescape r m with
    | inl t =>
        inl (String (if Ascii.eqb c "+"
                        && match m with url.encodeQueryComponent => true | _ => false end
                     then " "%char else c) t)
    | inr e => inr e
    end.
Proof. intros Hc. cbn [url.unescape]. rewrite Hc. reflexivity. Qed.

(** The two hex digits written for a byte read back as that byte. *)
Lemma hex_round_trip (c : ascii) :
  url.ishex (url.upperhex (nat_of_ascii c / 16))
    && url.ishex (url.upperhex (nat_of_ascii c mod 16)) = true
  /\ ascii_of_nat (url.unhex (url.upperhex (nat_of_ascii c / 16)) * 16
                   + url.unhex (url.upperhex (nat_of_ascii c mod 16))) = c.
Proof.
  destruct c as [[] [] [] [] [] [] [] []]; vm_compute; split; reflexivity.
Qed.

(** A byte that a query component keeps as it is, is neither [%] nor [+]. *)
Lemma kept_byte_is_plain (c : ascii) :
  url.shouldEscape c url.encodeQueryComponent = false ->
  Ascii.eqb c "%" = false /\ Ascii.eqb c "+" = false.
Proof.
  destruct c as [[] [] [] [] [] [] [] []]; vm_compute; intros Hc;
    try discriminate Hc; split; reflexivity.
Qed.

(** [QueryUnescape(QueryEscape(s)) = s]. *)
Lemma QueryEscape_round_trip (s : string) :
  url.unescape (url.QueryEscape s) url.encodeQueryComponent = inl s.
Proof.
  unfold url.QueryEscape. induction s as [|c r IH]; [reflexivity|].
  cbn [url.escape]. destruct (url.shouldEscape c url.encodeQueryComponent) eqn:Hesc.
  - destruct (Ascii.eqb c " ") eqn:Hsp; cbn [andb].
    + apply Ascii.eqb_eq in Hsp. subst c. rewrite append_String, append_Empty.
      rewrite unescape_plain by reflexivity. rewrite IH. reflexivity.
    + unfold url.escapeByte. rewrite !append_String, append_Empty.
      rewrite unescape_percent. destruct (hex_round_trip c) as [-> ->].
      rewrite IH. reflexivity.
  - rewrite append_String, append_Empty.
    destruct (kept_byte_is_plain c Hesc) as [Hp Hplus].
    rewrite unescape_plain by exact Hp. rewrite IH, Hplus. reflexivity.
Qed.

Lemma Add_fresh (key value : string) (v : url.Values) :
  v !! key = None -> url.Add key value v = <[key := [value]]> v.
Proof. intros Hk. unfold url.Add. rewrite Hk. reflexivity. Qed.

(** The keys of a map do not depend on its values. *)
Lemma keys_fmap (v : url.Values) :
  map fst (map_to_list v) = map fst (map_to_list ((fun _ => tt) <$> v)).
Proof.
  rewrite map_to_list_fmap. rewrite <- list_fmap_compose.
  apply list_fmap_ext. intros _ [k x] _. reflexivity.
Qed.

(** [Encode] of the five parameters [BeginAuth] adds: sorted by key. *)
Lemma Encode_authorization (client scope redirect state : string) :
  url.Encode
    (url.Add "state" state
       (url.Add "response_type" "code"
          (url.Add "redirect_uri" redirect
             (url.Add "scope" scope (url.Add "client_id" client ∅)))))
  = "client_id=" ++ url.QueryEscape client
    ++ "&redirect_uri=" ++ url.QueryEscape redirect
    ++ "&response_type=code"
    ++ "&scope=" ++ url.QueryEscape scope
    ++ "&state=" ++ url.QueryEscape state.
Proof.
  rewrite (Add_fresh "client_id") by apply lookup_empty.
  rewrite (Add_fresh "scope")
    by (rewrite lookup_insert_ne by discriminate; apply lookup_empty).
  rewrite (Add_fresh "redirect_uri")
    by (rewrite !lookup_insert_ne by discriminate; apply lookup_empty).
  rewrite (Add_fresh "response_type")
    by (rewrite !lookup_insert_ne by discriminate; apply lookup_empty).
  rewrite (Add_fresh "state")
    by (rewrite !lookup_insert_ne by discriminate; apply lookup_empty).
  unfold url.Encode. rewrite keys_fmap. rewrite !fmap_insert, fmap_empty.
  match goal with
  | |- context [url.sortKeys ?l] =>
      let l' := eval vm_compute in (url.sortKeys l) in
      change (url.sortKeys l) with l'
  end.
  cbn [flat_map].
  repeat (first [rewrite lookup_insert_eq | rewrite lookup_insert_ne by discriminate]).
  cbn [default Datatypes.id map app].
  change (url.QueryEscape "client_id") with "client_id".
  change (url.QueryEscape "redirect_uri") with "redirect_uri".
  change (url.QueryEscape "response_type") with "response_type".
  change (url.QueryEscape "scope") with "scope".
  change (url.QueryEscape "state") with "state".
  change (url.QueryEscape "code") with "code".
  cbn [strings.Join]. rewrite !append_assoc. reflexivity.
Qed.

(** * The login flow as a whole *)
Section FacebookFlow.
Context {W : Type} `{!facebook.Env W}.

Import facebook Reading.

Abbreviation loginPath := (utils.AppSettings_Path Cfg ++ "/login").
Abbreviation stateString := (utils.Statestr (utils.OauthSettings_FacebookSettings Cfg)).
Abbreviation nilDereference := "invalid memory address or nil pointer dereference".
Abbreviation graphMe :=
  "https://graph.facebook.com/v2.8/me?fields=id,name,email,picture,birthday,first_name,last_name,gender&access_token=".
Abbreviation unauthorized :=
  ({[ "status" := "unauthorized";
      "type" := constants_Facebook;
      "description" := "Cannot get user data from Facebook." ]} : gin.H string).

Ltac run :=
  cbv beta delta [Eff.bind Eff.ret Eff.emit Eff.get Eff.put Eff.panic call
                  Eff.events Eff.result Eff.store] iota; cbn [fst snd world oauthConf].

(** The redirect URI [initOauthConfig] builds: the site root is embedded
    when no location is given. *)
Abbreviation redirectURLFor location :=
  (utils.URL (utils.OauthSettings_FacebookSettings Cfg)
   ++ "?location="
   ++ url.QueryEscape
        (if String.eqb location "" then "https://www.twreporter.org" else location)).

Lemma initOauthConfig_run (location : string) (s : store W) :
  initOauthConfig location s
  = (Eff.Done tt,
     mkStore (world s)
       (Some match oauthConf s with
             | None =>
                 oauth2.mkConfig
                   (utils.ID (utils.OauthSettings_FacebookSettings Cfg))
                   (utils.Secret (utils.OauthSettings_FacebookSettings Cfg))
                   (redirectURLFor location) ["public_profile"; "email"]
                   facebook_Endpoint
             | Some conf => oauth2.set_RedirectURL conf (redirectURLFor location)
             end),
     []).
Proof. unfold initOauthConfig. run. destruct (oauthConf s); reflexivity. Qed.

Lemma BeginAuth_store (o : Facebook W) (c : gin.Context) (s : store W) :
  Eff.store (BeginAuth o c s)
  = Eff.store (initOauthConfig (gin.Query c "location") s).
Proof.
  unfold BeginAuth. run. rewrite initOauthConfig_run. run.
  destruct (url.Parse _); reflexivity.
Qed.

(** The six ways [getRemoteUserData] can go. *)
Lemma getRemoteUserData_shapes (r : gin.Request) (s : store W) :
  let code := gin.FormValue r "code" in
  let out := getRemoteUserData r s in
  (exists e, out = (Eff.Done ("", Some e), s, [EvRedirect loginPath 307])
             /\ gin.FormValue r "state" <> stateString)
  \/ (out = (Eff.Panic nilDereference, s, [])
      /\ gin.FormValue r "state" = stateString /\ oauthConf s = None)
  \/ (exists e err s1,
        out = (Eff.Done ("", Some e), s1,
               [EvExchange code (inr err); EvRedirect loginPath 307])
        /\ oauthConf s1 = oauthConf s)
  \/ (exists e tk err s1,
        out = (Eff.Done ("", Some e), s1,
               [EvExchange code (inl tk);
                EvGet (graphMe ++ url.QueryEscape (oauth2.AccessToken tk)) (Some err);
                EvRedirect loginPath 307])
        /\ oauthConf s1 = oauthConf s)
  \/ (exists e tk body err s1,
        out = (Eff.Done ("", Some e), s1,
               [EvExchange code (inl tk);
                EvGet (graphMe ++ url.QueryEscape (oauth2.AccessToken tk)) None;
                EvReadAll (body, Some err);
                EvRedirect loginPath 307; EvClose])
        /\ oauthConf s1 = oauthConf s)
  \/ (exists tk body s1,
        out = (Eff.Done (body, None), s1,
               [EvExchange code (inl tk);
                EvGet (graphMe ++ url.QueryEscape (oauth2.AccessToken tk)) None;
                EvReadAll (body, None); EvClose])
        /\ oauthConf s1 = oauthConf s).
Proof.
  intros code out. subst code out. unfold getRemoteUserData.
  destruct (String.eqb (gin.FormValue r "state") stateString) eqn:Hst; cbn [negb].
  2:{ left. apply String.eqb_neq in Hst. eexists. split; [reflexivity|exact Hst]. }
  apply String.eqb_eq in Hst. right. run.
  destruct (oauthConf s) as [conf|] eqn:Hconf; [|left; repeat split; assumption].
  right. destruct (Exchange _ _ _) as [[tk|err] w1]; run.
  2:{ left. do 3 eexists. split; [reflexivity|cbn [oauthConf]; congruence]. }
  right. destruct (http_Get _ _) as [[err|] w2]; run.
  1:{ left. do 4 eexists. split; [reflexivity|cbn [oauthConf]; congruence]. }
  right. destruct (ReadAll _) as [[body [err|]] w3]; run.
  - left. do 5 eexists. split; [reflexivity|cbn [oauthConf]; congruence].
  - right. do 3 eexists. split; [reflexivity|cbn [oauthConf]; congruence].
Qed.

(** With [oauthConf] set, [Authenticate] runs to completion and leaves it as
    it was. *)
Lemma Authenticate_completes (o : Facebook W) (c : gin.Context) (s : store W) :
  oauthConf s <> None ->
  Eff.result (Authenticate o c s) = Eff.Done tt
  /\ oauthConf (Eff.store (Authenticate o c s)) = oauthConf s.
Proof.
  intros Hconf.
  destruct (getRemoteUserData_shapes (gin.Request_ c) s)
    as [(e & Hout & _)|[(Hout & _ & Hnil)|[(e & err & s1 & Hout & Hc)
       |[(e & tk & err & s1 & Hout & Hc)|[(e & tk & body & err & s1 & Hout & Hc)
       |(tk & body & s1 & Hout & Hc)]]]]]; cbv zeta in Hout.
  - unfold Authenticate. run. rewrite Hout. split; reflexivity.
  - contradiction.
  - unfold Authenticate. run. rewrite Hout. split; [reflexivity|exact Hc].
  - unfold Authenticate. run. rewrite Hout. split; [reflexivity|exact Hc].
  - unfold Authenticate. run. rewrite Hout. split; [reflexivity|exact Hc].
  - pose proof (Authenticate_after_profile o c s s1 body _ Hout) as Hrun.
    cbv zeta in Hrun.
    destruct (GetUserDataByOAuth _ (world s1)) as [found w2].
    match type of Hrun with
    | (let '(_, _) := ?m in _) => destruct m as [reconciled w3]
    end.
    destruct (RetrieveToken _ _ _ _ _ w3) as [issued w4].
    rewrite Hrun. split; [reflexivity|exact Hc].
Qed.

(** X1.  [initOauthConfig] keeps nothing of an earlier location: after two
    [BeginAuth] the shared configuration is the one the second alone would
    have left, its redirect URI built from the second request's location. *)
Theorem BeginAuth_last_writer_wins
        (o : Facebook W) (c1 c2 : gin.Context) (s : store W) :
  Eff.store (BeginAuth o c2 (Eff.store (BeginAuth o c1 s)))
    = Eff.store (BeginAuth o c2 s)
  /\ exists conf,
       oauthConf (Eff.store (BeginAuth o c2 (Eff.store (BeginAuth o c1 s)))) = Some conf
       /\ oauth2.RedirectURL conf = redirectURLFor (gin.Query c2 "location").
Proof.
  rewrite !BeginAuth_store, !initOauthConfig_run. run.
  destruct (oauthConf s) as [conf|]; (split; [reflexivity|]);
    eexists; (split; [reflexivity|]); reflexivity.
Qed.

(** X2.  [initOauthConfig] always leaves a configuration behind, touches nothing
    else, and the location it embeds in the redirect URI -- the site root
    for an empty one -- is recovered from it by query-unescaping. *)
Theorem initOauthConfig_location_round_trip (location : string) (s : store W) :
  exists conf escaped,
    initOauthConfig location s = (Eff.Done tt, mkStore (world s) (Some conf), [])
    /\ oauth2.RedirectURL conf
       = utils.URL (utils.OauthSettings_FacebookSettings Cfg)
         ++ "?location=" ++ escaped
    /\ url.unescape escaped url.encodeQueryComponent
       = inl (if String.eqb location "" then "https://www.twreporter.org" else location).
Proof.
  rewrite initOauthConfig_run.
  destruct (oauthConf s) as [conf|]; do 2 eexists;
    (split; [reflexivity|]); (split; [reflexivity|]); apply QueryEscape_round_trip.
Qed.

(** X3.  When the provider's authorization URL parses, [BeginAuth] does one
    thing besides setting the configuration: a 307 redirect to that URL with
    its query replaced by the five parameters, in key order and
    query-escaped. *)
Theorem BeginAuth_redirects_to_provider
        (o : Facebook W) (c : gin.Context) (s : store W) conf authURL :
  oauthConf (Eff.store (initOauthConfig (gin.Query c "location") s)) = Some conf ->
  url.Parse (oauth2.AuthURL (oauth2.Endpoint_ conf)) = inl authURL ->
  BeginAuth o c s
  = (Eff.Done tt, mkStore (world s) (Some conf),
     [EvRedirect
        (url.String_
           (url.set_RawQuery authURL
              ("client_id=" ++ url.QueryEscape (oauth2.ClientID conf)
               ++ "&redirect_uri=" ++ url.QueryEscape (oauth2.RedirectURL conf)
               ++ "&response_type=code"
               ++ "&scope=" ++ url.QueryEscape (strings.Join (oauth2.Scopes conf) " ")
               ++ "&state=" ++ url.QueryEscape stateString)))
        http.StatusTemporaryRedirect]).
Proof.
  rewrite initOauthConfig_run. cbn [Eff.store fst snd oauthConf].
  intros Hconf Hparse. unfold BeginAuth. run. rewrite initOauthConfig_run. run.
  injection Hconf as Hconf. rewrite Hconf. run. rewrite Hparse. run.
  rewrite Encode_authorization. reflexivity.
Qed.

(** X4.  When the provider's authorization URL does not parse, [BeginAuth]
    panics on the nil URL: nothing is written to the response, and the
    configuration has already been set. *)
Theorem BeginAuth_malformed_endpoint_panics
        (o : Facebook W) (c : gin.Context) (s : store W) conf err :
  oauthConf (Eff.store (initOauthConfig (gin.Query c "location") s)) = Some conf ->
  url.Parse (oauth2.AuthURL (oauth2.Endpoint_ conf)) = inr err ->
  BeginAuth o c s = (Eff.Panic nilDereference, mkStore (world s) (Some conf), []).
Proof.
  rewrite initOauthConfig_run. cbn [Eff.store fst snd oauthConf].
  intros Hconf Hparse. unfold BeginAuth. run. rewrite initOauthConfig_run. run.
  injection Hconf as Hconf. rewrite Hconf. run. rewrite Hparse. reflexivity.
Qed.

(** X5.  Once any [BeginAuth] has run, however it ended, a callback runs to
    completion: the nil dereference of [oauthConf] cannot happen any more,
    and the callback leaves the configuration as it found it. *)
Theorem BeginAuth_then_Authenticate_completes
        (o : Facebook W) (c0 c : gin.Context) (s : store W) :
  let s1 := Eff.store (BeginAuth o c0 s) in
  Eff.result (Authenticate o c s1) = Eff.Done tt
  /\ oauthConf (Eff.store (Authenticate o c s1)) = oauthConf s1.
Proof.
  intros s1. apply Authenticate_completes. subst s1.
  rewrite BeginAuth_store, initOauthConfig_run. cbn. discriminate.
Qed.

(** X6.  A callback with the right [state] that arrives while [oauthConf] is
    still nil panics before anything is written or called. *)
Theorem Authenticate_before_BeginAuth_panics
        (o : Facebook W) (c : gin.Context) (s : store W) :
  gin.FormValue (gin.Request_ c) "state" = stateString ->
  oauthConf s = None ->
  Authenticate o c s = (Eff.Panic nilDereference, s, []).
Proof.
  intros Hst Hnil. unfold Authenticate, getRemoteUserData.
  apply String.eqb_eq in Hst. rewrite Hst. cbn [negb]. run. rewrite Hnil. reflexivity.
Qed.

(** X7.  [getRemoteUserData] redirects exactly when it fails: an error return
    comes with the empty string, one 307 redirect to the login path and an
    application error of code 500; a successful return writes nothing to
    the response; a panic happens before any event. *)
Theorem getRemoteUserData_redirects_iff_error (r : gin.Request) (s : store W) :
  let ev := Eff.events (getRemoteUserData r s) in
  match Eff.result (getRemoteUserData r s) with
  | Eff.Done (body, Some e) =>
      body = ""
      /\ List.filter is_response_write ev
         = [EvRedirect loginPath http.StatusTemporaryRedirect]
      /\ exists message detail,
           e = AppError message "controllers.oauth.facebook" detail 500
  | Eff.Done (_, None) => List.filter is_response_write ev = []
  | Eff.Panic _ => ev = []
  end.
Proof.
  intros ev. subst ev. unfold getRemoteUserData.
  destruct (negb _); run; [repeat split; eauto|].
  destruct (oauthConf s) as [conf|]; [|reflexivity].
  destruct (Exchange _ _ _) as [[tk|err] w1]; run; [|repeat split; eauto].
  destruct (http_Get _ _) as [[err|] w2]; run; [repeat split; eauto|].
  destruct (ReadAll _) as [[body [err|]] w3]; run; [repeat split; eauto|reflexivity].
Qed.

(** X8.  The response body is closed exactly when the profile request returned
    a response: then once, as the last thing done, whether reading it
    succeeded or not; otherwise never. *)
Theorem getRemoteUserData_closes_body (r : gin.Request) (s : store W) :
  let ev := Eff.events (getRemoteUserData r s) in
  if existsb is_fetched ev
  then count is_close ev = 1%nat /\ List.last ev (EvRedirect "" 0) = EvClose
  else count is_close ev = 0%nat.
Proof.
  intros ev. subst ev. unfold getRemoteUserData.
  destruct (negb _); run; [reflexivity|].
  destruct (oauthConf s) as [conf|]; [|reflexivity].
  destruct (Exchange _ _ _) as [[tk|err] w1]; run; [|reflexivity].
  destruct (http_Get _ _) as [[err|] w2]; run; [reflexivity|].
  destruct (ReadAll _) as [[body [err|]] w3]; run; split; reflexivity.
Qed.

(** X9.  With the right [state], the exchange is made with the package-level
    configuration and the [code] form value; on success the profile is
    requested from the fixed Graph URL with the access token query-escaped,
    so that it decodes back to the token; on failure the only other event is
    the redirect to the login path. *)
Theorem getRemoteUserData_exchanges_with_shared_config
        (r : gin.Request) (s : store W) conf :
  gin.FormValue r "state" = stateString ->
  oauthConf s = Some conf ->
  let code := gin.FormValue r "code" in
  let exchanged := fst (Exchange conf code (world s)) in
  exists rest,
    Eff.events (getRemoteUserData r s) = EvExchange code exchanged :: rest
    /\ match exchanged with
       | inl tk =>
           exists escaped res rest',
             rest = EvGet (graphMe ++ escaped) res :: rest'
             /\ url.unescape escaped url.encodeQueryComponent
                = inl (oauth2.AccessToken tk)
       | inr _ => rest = [EvRedirect loginPath http.StatusTemporaryRedirect]
       end.
Proof.
  intros Hst Hconf code exchanged. subst code exchanged. unfold getRemoteUserData.
  apply String.eqb_eq in Hst. rewrite Hst. cbn [negb]. run. rewrite Hconf.
  destruct (Exchange _ _ _) as [[tk|err] w1]; run; [|eexists; split; reflexivity].
  destruct (http_Get _ _) as [[err|] w2]; run.
  - eexists. split; [reflexivity|]. do 3 eexists. split; [reflexivity|].
    apply QueryEscape_round_trip.
  - destruct (ReadAll _) as [[body [err|]] w3]; run;
      (eexists; split; [reflexivity|]; do 3 eexists; split; [reflexivity|];
       apply QueryEscape_round_trip).
Qed.

(** X10.  Whenever [getRemoteUserData] returns an error, [Authenticate] writes to
    the response twice -- the redirect to the login path, then the 401 JSON
    body -- and neither calls storage nor asks for a token. *)
Theorem Authenticate_unauthorized
        (o : Facebook W) (c : gin.Context) (s : store W) body e :
  Eff.result (getRemoteUserData (gin.Request_ c) s) = Eff.Done (body, Some e) ->
  let ev := Eff.events (Authenticate o c s) in
  Eff.result (Authenticate o c s) = Eff.Done tt
  /\ List.filter is_response_write ev
     = [EvRedirect loginPath http.StatusTemporaryRedirect;
        EvJSON http.StatusUnauthorized unauthorized]
  /\ List.filter is_storage_call ev = []
  /\ count is_token ev = 0%nat.
Proof.
  intros Herr ev. subst ev.
  destruct (getRemoteUserData_shapes (gin.Request_ c) s)
    as [(e1 & Hout & _)|[(Hout & _)|[(e1 & err & s1 & Hout & _)
       |[(e1 & tk & err & s1 & Hout & _)|[(e1 & tk & b & err & s1 & Hout & _)
       |(tk & b & s1 & Hout & _)]]]]]; cbv zeta in Hout;
    rewrite Hout in Herr; try discriminate Herr;
    unfold Authenticate; run; rewrite Hout; repeat split.
Qed.


(** X12.  For an account that is already known, the token is asked for the
    record that the lookup returned; whatever [UpdateOAuthData] returns, its
    error included, is dropped. *)
Theorem Authenticate_known_user_token
        (o : Facebook W) (c : gin.Context) (s s1 : store W) fstring t1 matchUser w2 :
  getRemoteUserData (gin.Request_ c) s = (Eff.Done (fstring, None), s1, t1) ->
  GetUserDataByOAuth (UserStorage := Storage o) (remoteOauthOf fstring) (world s1)
    = ((matchUser, None), w2) ->
  forall updated w3,
    UpdateOAuthData (UserStorage := Storage o) (remoteOauthOf fstring) w2
      = (updated, w3) ->
    exists issued,
      Eff.events (Authenticate o c s)
      = (t1 ++
         [EvGetUserDataByOAuth (remoteOauthOf fstring) (matchUser, None);
          EvUpdateOAuthData (remoteOauthOf fstring) updated;
          EvRetrieveToken (models.ID matchUser) (models.Privilege matchUser)
            (sql.String_ (models.UserFirstName matchUser))
            (sql.String_ (models.UserLastName matchUser))
            (sql.String_ (models.UserEmail matchUser)) issued;
          tokenResponse (gin.Query c "location") (fst issued)])%list.
Proof.
  intros Hok Hfound updated w3 Hupd.
  pose proof (Authenticate_after_profile o c s s1 fstring t1 Hok) as Hrun.
  cbv zeta in Hrun. rewrite Hfound in Hrun. cbn [fst snd] in Hrun.
  rewrite Hupd in Hrun.
  destruct (RetrieveToken _ _ _ _ _ w3) as [issued w4].
  rewrite Hrun. eexists. reflexivity.
Qed.
End FacebookFlow.

(** * The topic endpoints as a whole *)
Section TopicFlow.
Context {W Topic Q : Type} `{!controllers.Env Topic Q}.

Import controllers Reading.

(** [ParseBool] answers true on its six true literals and on nothing else. *)
Lemma ParseBool_true_iff (str : string) :
  fst (strconv.ParseBool str) = true <-> In str trueLiterals.
Proof.
  unfold strconv.ParseBool, trueLiterals.
  destruct (existsb (String.eqb str) ["1"; "t"; "T"; "true"; "TRUE"; "True"]) eqn:Ht.
  - split; [intros _|intros _; reflexivity].
    apply existsb_exists in Ht as (x & Hin & Heq).
    apply String.eqb_eq in Heq. subst x. exact Hin.
  - split.
    + destruct (existsb (String.eqb str) ["0"; "f"; "F"; "false"; "FALSE"; "False"]);
        cbn [fst]; intros Hf; discriminate Hf.
    + intros Hin. assert (existsb (String.eqb str)
                            ["1"; "t"; "T"; "true"; "TRUE"; "True"] = true) as Hyes.
      { apply existsb_exists. exists str. split; [exact Hin|apply String.eqb_refl]. }
      congruence.
Qed.

(** X13.  Once the query has parsed, [GetTopics] makes exactly one storage call,
    for the full projection exactly when [full] is set.  If that call
    reports an error the answer is [toPostResponse] of it, whatever topics
    came along; otherwise the answer is 200 without error. *)
Theorem GetTopics_one_storage_call
        (nc : NewsController W Topic Q) (c : gin.Context) (w : W)
        mq limit offset sort full :
  GetQueryParam c = (None, mq, limit, offset, sort, full) ->
  exists ev,
    Eff.events (GetTopics nc c w) = [ev]
    /\ is_full ev = full
    /\ match storageError ev with
       | Some e => Eff.result (GetTopics nc c w) = Eff.Done (toPostResponse e)
       | None =>
           exists r, Eff.result (GetTopics nc c w) = Eff.Done r
                     /\ fst (fst r) = http.StatusOK /\ snd r = None
       end.
Proof.
  intros Hq. pose proof (GetTopics_parsed nc c w _ _ _ _ _ Hq) as Hrun.
  cbv zeta in Hrun. rewrite Hrun. clear Hrun. cbn [Eff.events Eff.result fst snd].
  match goal with
  | |- context [fst ?call] => destruct call as [[[topics total] err] w']
  end.
  cbn [fst]. eexists. split; [reflexivity|].
  split; [destruct full; reflexivity|].
  destruct full; cbn [storageError]; destruct err as [e|];
    try reflexivity; eexists; repeat split.
Qed.

(** X14.  A non-zero limit and a non-empty sort reach storage as they were parsed,
    together with the offset and the filter; nothing is validated or
    clamped, and the envelope of a successful call echoes that limit. *)
Theorem GetTopics_passes_parameters_through
        (nc : NewsController W Topic Q) (c : gin.Context) (w : W)
        mq limit offset sort full :
  GetQueryParam c = (None, mq, limit, offset, sort, full) ->
  limit <> 0 ->
  sort <> "" ->
  exists topics total err,
    Eff.events (GetTopics nc c w)
      = [(if full then EvGetFullTopics else EvGetMetaOfTopics)
           mq limit offset sort nil_slice (topics, total, err)]
    /\ match err with
       | Some _ => True
       | None =>
           exists r, Eff.result (GetTopics nc c w) = Eff.Done r
                     /\ meta r = Some (models.mkMeta total offset limit)
       end.
Proof.
  intros Hq Hlimit Hsort. pose proof (GetTopics_parsed nc c w _ _ _ _ _ Hq) as Hrun.
  cbv zeta in Hrun. apply Z.eqb_neq in Hlimit. apply String.eqb_neq in Hsort.
  rewrite Hlimit, Hsort in Hrun. rewrite Hrun. clear Hrun.
  cbn [Eff.events Eff.result fst snd].
  match goal with
  | |- context [fst ?call] => destruct call as [[[topics total] err] w']
  end.
  cbn [fst]. exists topics, total, err. split; [reflexivity|].
  destruct err as [e|]; [exact I|].
  eexists. split; [reflexivity|]. apply meta_page.
Qed.

(** X15.  What storage returns is what the client gets: every record of a
    non-nil result, in order and however many against the limit, with the
    total that storage reported; and the world is left as storage left it. *)
Theorem GetTopics_returns_what_storage_returned
        (nc : NewsController W Topic Q) (c : gin.Context) (w w' : W)
        mq limit offset sort full l total :
  GetQueryParam c = (None, mq, limit, offset, sort, full) ->
  (if full then GetFullTopics (NewsStorage := Storage nc)
   else GetMetaOfTopics (NewsStorage := Storage nc))
    mq (if limit =? 0 then 10 else limit) offset
    (if String.eqb sort "" then "-publishedDate" else sort) nil_slice w
  = ((make_slice l, total, None), w') ->
  exists r,
    Eff.result (GetTopics nc c w) = Eff.Done r
    /\ records r = Some (make_slice l)
    /\ meta r = Some (models.mkMeta total offset (if limit =? 0 then 10 else limit))
    /\ Eff.store (GetTopics nc c w) = w'.
Proof.
  intros Hq Hcall. pose proof (GetTopics_parsed nc c w _ _ _ _ _ Hq) as Hrun.
  cbv zeta in Hrun. rewrite Hcall in Hrun. rewrite Hrun. clear Hrun.
  cbn [Eff.result Eff.store fst snd is_nil].
  eexists. split; [reflexivity|]. rewrite records_page, meta_page. repeat split.
Qed.

(** X16.  [GetATopic] never panics: [topics[0]] is only read from a slice that has
    an element. *)
Theorem GetATopic_never_panics
        (nc : NewsController W Topic Q) (c : gin.Context) (w : W) :
  exists r, Eff.result (GetATopic nc c w) = Eff.Done r.
Proof.
  pose proof (GetATopic_run nc c w) as Hrun. cbv zeta in Hrun. rewrite Hrun. clear Hrun.
  cbn [Eff.result fst].
  match goal with
  | |- context [fst ?call] => destruct call as [[[topics total] [e|]] w']
  end; cbn [fst]; [eauto|].
  destruct (len topics =? 0) eqn:Hlen; [eauto|].
  apply Z.eqb_neq in Hlen. destruct (first_of_nonempty topics Hlen) as [record ->].
  eauto.
Qed.

(** X17.  [GetATopic] reads the [slug] path parameter and the [full] query
    parameter and nothing else of the request: limit, offset, sort and
    filter parameters have no effect. *)
Theorem GetATopic_reads_slug_and_full_only
        (nc : NewsController W Topic Q) (c c' : gin.Context) (w : W) :
  gin.Param c "slug" = gin.Param c' "slug" ->
  gin.Query c "full" = gin.Query c' "full" ->
  GetATopic nc c w = GetATopic nc c' w.
Proof.
  intros Hslug Hfull.
  pose proof (GetATopic_run nc c w) as Hrun.
  pose proof (GetATopic_run nc c' w) as Hrun'.
  cbv zeta in Hrun, Hrun'. rewrite Hrun, Hrun', Hslug, Hfull. reflexivity.
Qed.

(** X18.  [GetATopic] asks for the full projection exactly when [full] is one of
    [1], [t], [T], [true], [TRUE], [True]; otherwise, an absent [full]
    included, for the meta projection. *)
Theorem GetATopic_full_projection_iff_true_literal
        (nc : NewsController W Topic Q) (c : gin.Context) (w : W) :
  existsb is_full (Eff.events (GetATopic nc c w)) = true
  <-> In (gin.Query c "full") trueLiterals.
Proof.
  pose proof (GetATopic_run nc c w) as Hrun. cbv zeta in Hrun. rewrite Hrun. clear Hrun.
  cbn [Eff.events snd]. rewrite <- ParseBool_true_iff.
  destruct (fst (strconv.ParseBool (gin.Query c "full"))); cbn; split; congruence.
Qed.
End TopicFlow.

(** * The flows on the small concrete worlds *)

Lemma BeginAuth_redirects_to_provider_witness :
  let c := Demo.callback "https://www.twreporter.org/a?ref=mail" "" "" in
  Eff.events (facebook.BeginAuth Demo.controller c (facebook.mkStore [] None))
  = [facebook.EvRedirect
       "https://www.facebook.com/dialog/oauth?client_id=app-id&redirect_uri=https%3A%2F%2Fgo-api.twreporter.org%2Fv1%2Fauth%2Ffacebook%2Fcallback%3Flocation%3Dhttps%253A%252F%252Fwww.twreporter.org%252Fa%253Fref%253Dmail&response_type=code&scope=public_profile+email&state=anti-forgery"
       307].
Proof.
  intros c.
  eassert (Hconf : facebook.oauthConf
                     (Eff.store (facebook.initOauthConfig (gin.Query c "location")
                                   (facebook.mkStore ([] : Demo.world) None)))
                   = Some _)
    by (vm_compute; reflexivity).
  eassert (Hparse : url.Parse "https://www.facebook.com/dialog/oauth" = inl _)
    by (vm_compute; reflexivity).
  pose proof (BeginAuth_redirects_to_provider Demo.controller c _ _ _ Hconf Hparse)
    as Hrun.
  apply (f_equal Eff.events) in Hrun.
  etransitivity; [exact Hrun | vm_compute; reflexivity].
Defined.

Lemma BeginAuth_malformed_endpoint_panics_witness :
  let c := Demo.callback "https://www.twreporter.org/a" "" "" in
  Eff.result (facebook.BeginAuth (Env0 := Misconfigured.env) Demo.controller c
                (facebook.mkStore [] None))
    = Eff.Panic "invalid memory address or nil pointer dereference"
  /\ Eff.events (facebook.BeginAuth (Env0 := Misconfigured.env) Demo.controller c
                   (facebook.mkStore [] None)) = [].
Proof.
  intros c.
  eassert (Hconf : facebook.oauthConf
                     (Eff.store (facebook.initOauthConfig (Env0 := Misconfigured.env)
                                   (gin.Query c "location")
                                   (facebook.mkStore ([] : Demo.world) None)))
                   = Some _)
    by (vm_compute; reflexivity).
  eassert (Hparse : url.Parse ":dialog/oauth" = inr _) by (vm_compute; reflexivity).
  pose proof (BeginAuth_malformed_endpoint_panics (H := Misconfigured.env)
                Demo.controller c _ _ _ Hconf Hparse) as Hrun.
  split.
  - exact (f_equal Eff.result Hrun).
  - exact (f_equal Eff.events Hrun).
Defined.

Lemma Authenticate_before_BeginAuth_panics_witness :
  let c := Demo.callback "https://www.twreporter.org/a" "anti-forgery" "good" in
  facebook.Authenticate Demo.controller c (facebook.mkStore [] None)
  = (Eff.Panic "invalid memory address or nil pointer dereference",
     facebook.mkStore [] None, []).
Proof.
  intros c.
  assert (Hst : gin.FormValue (gin.Request_ c) "state"
                = utils.Statestr (utils.OauthSettings_FacebookSettings facebook.Cfg))
    by (vm_compute; reflexivity).
  exact (Authenticate_before_BeginAuth_panics Demo.controller c
           (facebook.mkStore [] None) Hst eq_refl).
Defined.

Lemma getRemoteUserData_exchanges_with_shared_config_witness :
  let c := Demo.callback "https://www.twreporter.org/a" "anti-forgery" "expired" in
  Eff.events (facebook.getRemoteUserData (gin.Request_ c) (Demo.started []))
  = [facebook.EvExchange "expired" (inr (errors_New "bad verification code"));
     facebook.EvRedirect "https://www.twreporter.org/login" 307].
Proof.
  intros c.
  assert (Hst : gin.FormValue (gin.Request_ c) "state"
                = utils.Statestr (utils.OauthSettings_FacebookSettings facebook.Cfg))
    by (vm_compute; reflexivity).
  eassert (Hconf : facebook.oauthConf (Demo.started []) = Some _)
    by (vm_compute; reflexivity).
  destruct (getRemoteUserData_exchanges_with_shared_config
              (gin.Request_ c) (Demo.started []) _ Hst Hconf) as (rest & Hev & Hrest).
  vm_compute in Hrest. rewrite Hev, Hrest. vm_compute. reflexivity.
Defined.

Lemma Authenticate_unauthorized_witness :
  let c := Demo.callback "https://www.twreporter.org/a" "anti-forgery" "expired" in
  let ev := Eff.events (facebook.Authenticate Demo.controller c (Demo.started [])) in
  Eff.result (facebook.Authenticate Demo.controller c (Demo.started [])) = Eff.Done tt
  /\ List.filter facebook.is_response_write ev
     = [facebook.EvRedirect "https://www.twreporter.org/login" 307;
        facebook.EvJSON 401
          {[ "status" := "unauthorized";
             "type" := "Facebook";
             "description" := "Cannot get user data from Facebook." ]}]
  /\ List.filter facebook.is_storage_call ev = []
  /\ facebook.count Reading.is_token ev = 0%nat.
Proof.
  intros c ev. subst ev.
  eassert (Herr : Eff.result (facebook.getRemoteUserData (gin.Request_ c) (Demo.started []))
                  = Eff.Done (_, Some _))
    by (vm_compute; reflexivity).
  exact (Authenticate_unauthorized Demo.controller c (Demo.started []) _ _ Herr).
Defined.


Lemma Authenticate_known_user_token_witness :
  let c := Demo.callback "https://www.twreporter.org/a" "anti-forgery" "good" in
  let s := Demo.started [("1234", Demo.knownUser)] in
  exists t1 found updated issued response,
    Eff.events (facebook.Authenticate Demo.controller c s)
    = (t1 ++ [found; facebook.EvUpdateOAuthData (facebook.remoteOauthOf "1234") updated;
              facebook.EvRetrieveToken 7 1 "Ada" "Lovelace" "ada@example.org" issued;
              response])%list.
Proof.
  intros c s.
  eassert (Hok : facebook.getRemoteUserData (gin.Request_ c) s
                 = (Eff.Done (_, None), _, _))
    by (vm_compute; reflexivity).
  eassert (Hfound : facebook.GetUserDataByOAuth (facebook.remoteOauthOf "1234")
                      ([("1234", Demo.knownUser)] : Demo.world)
                    = ((_, None), _))
    by (vm_compute; reflexivity).
  eassert (Hupd : facebook.UpdateOAuthData (facebook.remoteOauthOf "1234")
                    ([("1234", Demo.knownUser)] : Demo.world) = (_, _))
    by (vm_compute; reflexivity).
  destruct (Authenticate_known_user_token Demo.controller c s _ _ _ _ _ Hok Hfound
              _ _ Hupd) as (issued & Hev).
  rewrite Hev. do 5 eexists. reflexivity.
Defined.

Lemma GetTopics_one_storage_call_witness :
  let c := Demo.request "" [("full", "true")] in
  exists ev,
    Eff.events (controllers.GetTopics Demo.news c ["a-topic"]) = [ev]
    /\ Reading.is_full ev = true
    /\ match controllers.storageError ev with
       | Some e =>
           Eff.result (controllers.GetTopics Demo.news c ["a-topic"])
             = Eff.Done (controllers.toPostResponse e)
       | None =>
           exists r,
             Eff.result (controllers.GetTopics Demo.news c ["a-topic"]) = Eff.Done r
             /\ fst (fst r) = http.StatusOK /\ snd r = None
       end.
Proof.
  intros c.
  eassert (Hq : controllers.GetQueryParam c = (None, _, _, _, _, true))
    by (vm_compute; reflexivity).
  exact (GetTopics_one_storage_call Demo.news c ["a-topic"] _ _ _ _ _ Hq).
Defined.

Lemma GetTopics_passes_parameters_through_witness :
  let c := Demo.request "" [("limit", "5"); ("offset", "2"); ("sort", "title")] in
  exists topics total err,
    Eff.events (controllers.GetTopics Demo.news c ["a"; "b"; "c"])
    = [controllers.EvGetMetaOfTopics (controllers.mkMongoQuery "" tt) 5 2 "title"
         nil_slice (topics, total, err)].
Proof.
  intros c.
  assert (Hq : controllers.GetQueryParam c
               = (None, controllers.mkMongoQuery "" tt, 5, 2, "title", false))
    by (vm_compute; reflexivity).
  destruct (GetTopics_passes_parameters_through Demo.news c ["a"; "b"; "c"]
              _ _ _ _ _ Hq ltac:(discriminate) ltac:(discriminate))
    as (topics & total & err & Hev & _).
  exists topics, total, err. exact Hev.
Defined.

Lemma GetTopics_returns_what_storage_returned_witness :
  let c := Demo.request "" [] in
  exists r,
    Eff.result (controllers.GetTopics Demo.news c ["a"; "b"; "c"]) = Eff.Done r
    /\ controllers.records r = Some (make_slice ["a"; "b"; "c"])
    /\ controllers.meta r = Some (models.mkMeta 3 0 10)
    /\ Eff.store (controllers.GetTopics Demo.news c ["a"; "b"; "c"]) = ["a"; "b"; "c"].
Proof.
  intros c.
  assert (Hq : controllers.GetQueryParam c
               = (None, controllers.mkMongoQuery "" tt, 0, 0, "", false))
    by (vm_compute; reflexivity).
  eassert (Hcall : controllers.GetMetaOfTopics (controllers.mkMongoQuery "" tt) 10 0
                     "-publishedDate" nil_slice (["a"; "b"; "c"] : list Demo.Topic)
                   = ((make_slice _, _, None), _))
    by (vm_compute; reflexivity).
  exact (GetTopics_returns_what_storage_returned Demo.news c _ _ _ _ _ _ _ _ _
           Hq Hcall).
Defined.

Lemma GetATopic_reads_slug_and_full_only_witness :
  controllers.GetATopic Demo.news
    (Demo.request "a-topic" [("limit", "5"); ("offset", "2"); ("sort", "title")])
    ["a-topic"; "another"]
  = controllers.GetATopic Demo.news (Demo.request "a-topic" []) ["a-topic"; "another"].
Proof.
  apply GetATopic_reads_slug_and_full_only; vm_compute; reflexivity.
Defined.
